(** * podman [start] and [container prune]: a shallow embedding

    The two commands of [cmd/podman] (the [start] command and
    [container prune]) together with the helpers of [cmd/podman/common.go]
    they rely on, written as state-passing functions over an abstract
    container runtime, and the properties of the batch container-operation
    engine proved about them.

    Everything the commands do to the outside (runtime calls, standard
    output, standard error, the logrus log, the global [exitCode]) is
    threaded through an explicit state; every call that leaves the command
    is also recorded in a trace of events, so that "this call is (not)
    issued" is a statement about the trace. *)

From Stdlib Require Import String Ascii List Bool ZArith Lia.
Import ListNotations.
Open Scope string_scope.

(* ================================================================== *)
(** ** Go errors ([github.com/pkg/errors]) *)

(** An error value is a root error with a message ([errors.New],
    [errors.Errorf]) or an error wrapped with a message ([errors.Wrapf]).
    A Go [error] variable that may be [nil] is an [option error]. *)
Inductive error : Type :=
| errorNew (msg : string)
| withMessage (cause : error) (msg : string).

Definition Errorf (msg : string) : error := errorNew msg.

(** [errors.Wrapf(err, ...)] for a non-nil [err]. *)
Definition Wrapf (err : error) (msg : string) : error := withMessage err msg.

(** The [Error()] method: the message of a wrapped error is its own
    message, a colon and the message of its cause. *)
Fixpoint Error (e : error) : string :=
  match e with
  | errorNew msg => msg
  | withMessage cause msg => msg ++ ": " ++ Error cause
  end.

(** [errors.Cause]: the root of a chain of wrappers. *)
Fixpoint Cause (e : error) : error :=
  match e with
  | errorNew _ => e
  | withMessage cause _ => Cause cause
  end.

(** An error mentions an identifier when the identifier occurs in its
    message. *)
Definition mentions (e : error) (id : string) : Prop :=
  exists pre post, Error e = pre ++ id ++ post.

(* ================================================================== *)
(** ** The command line ([github.com/urfave/cli]) *)

(** The parsed command line: the positional arguments and, for each kind of
    flag, the flags that were given together with their values.  A flag that
    is absent from these lists was not set. *)
Record Context : Type := {
  Args : list string;
  setBools : list (string * bool);
  setStrings : list (string * string);
  setStringSlices : list (string * list string);
  setGlobalInts : list (string * Z)
}.

Fixpoint lookupFlag {A : Type} (name : string) (l : list (string * A)) : option A :=
  match l with
  | [] => None
  | (n, v) :: rest => if String.eqb n name then Some v else lookupFlag name rest
  end.

(** [c.Bool(name)]: the value given, false when the flag was not set. *)
Definition Bool (c : Context) (name : string) : bool :=
  match lookupFlag name (setBools c) with Some b => b | None => false end.

(** [c.BoolT(name)]: the value given, true when the flag was not set. *)
Definition BoolT (c : Context) (name : string) : bool :=
  match lookupFlag name (setBools c) with Some b => b | None => true end.

(** [c.String(name)]: the value given, the empty string otherwise. *)
Definition String_ (c : Context) (name : string) : string :=
  match lookupFlag name (setStrings c) with Some s => s | None => "" end.

(** [c.StringSlice(name)]. *)
Definition StringSlice (c : Context) (name : string) : list string :=
  match lookupFlag name (setStringSlices c) with Some l => l | None => [] end.

(** [c.IsSet(name)]: the flag was given on the command line. *)
Definition IsSet (c : Context) (name : string) : bool :=
  match lookupFlag name (setBools c), lookupFlag name (setStrings c),
        lookupFlag name (setStringSlices c) with
  | None, None, None => false
  | _, _, _ => true
  end.

(** [c.GlobalIsSet(name)] and [c.GlobalInt(name)], for the integer options
    of the application. *)
Definition GlobalIsSet (c : Context) (name : string) : bool :=
  match lookupFlag name (setGlobalInts c) with Some _ => true | None => false end.

Definition GlobalInt (c : Context) (name : string) : Z :=
  match lookupFlag name (setGlobalInts c) with Some n => n | None => 0%Z end.

(** The flag declarations a command carries; [validateFlags] switches on
    the declared type of each. *)
Inductive Flag : Type :=
| BoolFlag (Name : string)
| BoolTFlag (Name : string)
| StringFlag (Name : string)
| StringSliceFlag (Name : string).

(* ================================================================== *)
(** ** Containers and the runtime *)

(** [libpod.ContainerStatus]. *)
Inductive ContainerStatus : Type :=
| ContainerStateUnknown
| ContainerStateConfigured
| ContainerStateCreated
| ContainerStateRunning
| ContainerStateStopped
| ContainerStatePaused
| ContainerStateExited.

Definition ContainerStatus_eqb (a b : ContainerStatus) : bool :=
  match a, b with
  | ContainerStateUnknown, ContainerStateUnknown
  | ContainerStateConfigured, ContainerStateConfigured
  | ContainerStateCreated, ContainerStateCreated
  | ContainerStateRunning, ContainerStateRunning
  | ContainerStateStopped, ContainerStateStopped
  | ContainerStatePaused, ContainerStatePaused
  | ContainerStateExited, ContainerStateExited => true
  | _, _ => false
  end.

(** The immutable part of a container: what [ID()] and [PodID()] read.  Its
    state, its artifacts and the outcome of operations on it belong to the
    runtime. *)
Record Container : Type := {
  ID : string;
  PodID : string
}.

(** A [*libpod.Container]: [None] is the nil pointer. *)
Definition ptr : Type := option Container.

(** The part of [cc.CreateConfig] that [start] reads. *)
Record CreateConfig : Type := {
  Rm : bool
}.

(** The zero value of [var createArtifact cc.CreateConfig]. *)
Definition zeroCreateConfig : CreateConfig := {| Rm := false |}.

(** The calls that leave the command. *)
Inductive Event : Type :=
| EvGetRuntime
| EvShutdown (force : bool)
| EvLookupContainer (idOrName : string)
| EvGetLatestContainer
| EvGetContainers
| EvState (ctr : Container)
| EvStart (ctr : Container)
| EvStartAttach (ctr : Container) (stdin : bool) (detachKeys : string)
                (sigProxy startContainer : bool)
| EvWait (ctr : Container)
| EvCleanup (ctr : Container)
| EvGetArtifact (ctr : Container) (name : string)
| EvRemoveContainer (ctr : Container) (force : bool)
| EvParallelExecute (maxWorkers : Z) (ids : list string).

Definition Container_eqb (a b : Container) : bool :=
  String.eqb (ID a) (ID b) && String.eqb (PodID a) (PodID b).

(** The event is a forced call of [RemoveContainer] on [ctr]. *)
Definition isForcedRemoveOf (ctr : Container) (e : Event) : bool :=
  match e with
  | EvRemoveContainer c true => Container_eqb c ctr
  | _ => false
  end.

(** The event is a call of the container's [Start]. *)
Definition isStart (e : Event) : bool :=
  match e with EvStart _ => true | _ => false end.

(** The event is a call of [startAttachCtr]. *)
Definition isAttach (e : Event) : bool :=
  match e with EvStartAttach _ _ _ _ _ => true | _ => false end.

(** The event is the Batch Executor being invoked. *)
Definition isParallelExecute (e : Event) : bool :=
  match e with EvParallelExecute _ _ => true | _ => false end.

(** The event is one of the runtime's selection calls. *)
Definition isSelectionCall (e : Event) : bool :=
  match e with
  | EvLookupContainer _ | EvGetLatestContainer | EvGetContainers => true
  | _ => false
  end.

Definition count (p : Event -> bool) (t : list Event) : nat :=
  length (filter p t).

(* ================================================================== *)
(** ** The state threaded through a command *)

Section Engine.

(** The state of everything outside the command: the runtime and its
    backing store, the containers and their processes. *)
Variable W : Type.

Record St : Type := {
  world : W;
  trace : list Event;          (* calls issued so far, oldest first *)
  stdout : list string;        (* lines printed with fmt.Println *)
  stderr : list string;        (* lines printed to os.Stderr *)
  logrus : list string;        (* logrus.Errorf messages *)
  exitCode : Z                 (* the global exitCode *)
}.

Definition initSt (w : W) : St :=
  {| world := w; trace := []; stdout := []; stderr := []; logrus := [];
     exitCode := 0%Z |}.

(** A computation returns a value or panics (a nil pointer is
    dereferenced), and leaves a state. *)
Inductive Res (A : Type) : Type :=
| Val (a : A)
| Panic.
Arguments Val {A} a.
Arguments Panic {A}.

Definition M (A : Type) : Type := St -> Res A * St.

Definition ret {A : Type} (a : A) : M A := fun s => (Val a, s).

Definition bind {A B : Type} (m : M A) (k : A -> M B) : M B :=
  fun s => match m s with
           | (Val a, s') => k a s'
           | (Panic, s') => (Panic, s')
           end.

Definition panic {A : Type} : M A := fun s => (Panic, s).

Notation "x <- m ;; k" := (bind m (fun x => k))
  (at level 61, m at next level, right associativity).
Notation "' p <- m ;; k" := (bind m (fun x => let p := x in k))
  (at level 61, p pattern, m at next level, right associativity).
Notation "m ;;; k" := (bind m (fun _ => k))
  (at level 61, right associativity).

(** A call that leaves the command: it is recorded, and the outside
    answers and moves on. *)
Definition called (s : St) (e : Event) (w' : W) : St :=
  {| world := w'; trace := trace s ++ [e];
     stdout := stdout s; stderr := stderr s;
     logrus := logrus s; exitCode := exitCode s |}.

Definition call {A : Type} (e : Event) (f : W -> A * W) : M A :=
  fun s => let (a, w') := f (world s) in (Val a, called s e w').

(** [fmt.Println(line)]. *)
Definition Println (line : string) : M unit :=
  fun s => (Val tt, {| world := world s; trace := trace s;
                       stdout := stdout s ++ [line]; stderr := stderr s;
                       logrus := logrus s; exitCode := exitCode s |}).

(** [fmt.Fprintln(os.Stderr, err)]. *)
Definition FprintlnStderr (err : error) : M unit :=
  fun s => (Val tt, {| world := world s; trace := trace s;
                       stdout := stdout s; stderr := stderr s ++ [Error err];
                       logrus := logrus s; exitCode := exitCode s |}).

(** [logrus.Errorf(msg)]. *)
Definition logrusErrorf (msg : string) : M unit :=
  fun s => (Val tt, {| world := world s; trace := trace s;
                       stdout := stdout s; stderr := stderr s;
                       logrus := logrus s ++ [msg]; exitCode := exitCode s |}).

(** [exitCode = code]. *)
Definition setExitCode (code : Z) : M unit :=
  fun s => (Val tt, {| world := world s; trace := trace s;
                       stdout := stdout s; stderr := stderr s;
                       logrus := logrus s; exitCode := code |}).

(** [defer d] around [m]: [d] runs when [m] returns or panics, and what it
    returns is dropped. *)
Definition defer {A B : Type} (d : M B) (m : M A) : M A :=
  fun s => let (r, s') := m s in (r, snd (d s')).

(** The container runtime, as the commands see it: each operation answers
    from the state of the outside and may change it. *)
Record Runtime : Type := {
  rtGetRuntime : Context -> W -> option error * W;
  rtShutdown : bool -> W -> option error * W;
  rtLookupContainer : string -> W -> (ptr * option error) * W;
  rtGetLatestContainer : W -> (ptr * option error) * W;
  rtAllContainers : W -> (list Container * option error) * W;
  rtRemoveContainer : Container -> bool -> W -> option error * W;
  ctrState : Container -> W -> (ContainerStatus * option error) * W;
  ctrStart : Container -> W -> option error * W;
  ctrGetArtifact : Container -> string -> W -> (string * option error) * W;
  ctrWait : Container -> W -> (Z * option error) * W;
  ctrCleanup : Container -> W -> option error * W;
  rtStartAttachCtr :
    Container -> bool -> string -> bool -> bool -> W -> option error * W
}.

Variable R : Runtime.

(** [libpod.ErrInvalidArg]. *)
Variable ErrInvalidArg : error.

(** [strconv.Quote], the [%q] verb of [fmt]. *)
Variable Quote : string -> string.

(** [json.Unmarshal(artifact, &createArtifact)]: the configuration after
    decoding, and the decoding error. *)
Variable jsonUnmarshal : string -> CreateConfig -> CreateConfig * option error.

(** [shared.Parallelize(job)]: the default number of workers of a job. *)
Variable Parallelize : string -> Z.

(** *** The runtime's operations, recorded *)

Definition GetRuntime (c : Context) : M (option error) :=
  call EvGetRuntime (rtGetRuntime R c).

Definition Shutdown (force : bool) : M (option error) :=
  call (EvShutdown force) (rtShutdown R force).

Definition LookupContainer (idOrName : string) : M (ptr * option error) :=
  call (EvLookupContainer idOrName) (rtLookupContainer R idOrName).

Definition GetLatestContainer : M (ptr * option error) :=
  call EvGetLatestContainer (rtGetLatestContainer R).

Definition RemoveContainer (ctr : Container) (force : bool) : M (option error) :=
  call (EvRemoveContainer ctr force) (rtRemoveContainer R ctr force).

Definition State (ctr : Container) : M (ContainerStatus * option error) :=
  call (EvState ctr) (ctrState R ctr).

Definition Start (ctr : Container) : M (option error) :=
  call (EvStart ctr) (ctrStart R ctr).

Definition GetArtifact (ctr : Container) (name : string)
  : M (string * option error) :=
  call (EvGetArtifact ctr name) (ctrGetArtifact R ctr name).

Definition Wait (ctr : Container) : M (Z * option error) :=
  call (EvWait ctr) (ctrWait R ctr).

Definition Cleanup (ctr : Container) : M (option error) :=
  call (EvCleanup ctr) (ctrCleanup R ctr).

(** [startAttachCtr(ctr, os.Stdout, os.Stderr, inputStream, detachKeys,
    sigProxy, startContainer)]; [stdin] is false when [inputStream] is nil. *)
Definition startAttachCtr (ctr : Container) (stdin : bool)
    (detachKeys : string) (sigProxy startContainer : bool) : M (option error) :=
  call (EvStartAttach ctr stdin detachKeys sigProxy startContainer)
       (rtStartAttachCtr R ctr stdin detachKeys sigProxy startContainer).

(** A filter of [GetContainers]: a Go closure over a container. *)
Definition ContainerFilter : Type := Container -> M bool.

(** [include = include && filter(ctr)] over the filters. *)
Fixpoint allFilters (filters : list ContainerFilter) (ctr : Container) : M bool :=
  match filters with
  | [] => ret true
  | f :: rest => b <- f ctr ;; if b then allFilters rest ctr else ret false
  end.

Fixpoint keepContainers (filters : list ContainerFilter) (ctrs : list Container)
  : M (list Container) :=
  match ctrs with
  | [] => ret []
  | ctr :: rest =>
      b <- allFilters filters ctr ;;
      kept <- keepContainers filters rest ;;
      ret (if b then ctr :: kept else kept)
  end.

(** Modelled from the spec: [runtime.GetContainers(filters...)] is not part
    of these sources.  The runtime is queried for all its containers; the
    containers that pass every filter are kept, in the runtime's order; the
    error is that of the bulk query alone. *)
Definition GetContainers (filters : list ContainerFilter)
  : M (list ptr * option error) :=
  ' (ctrs, err) <- call EvGetContainers (rtAllContainers R) ;;
  match err with
  | Some e => ret ([], Some e)
  | None => kept <- keepContainers filters ctrs ;; ret (map Some kept, None)
  end.

(* ================================================================== *)
(** ** [cmd/podman/common.go] *)

(** [strings.Split(name, ",")[0]]: the name up to its first comma. *)
Fixpoint firstName (name : string) : string :=
  match name with
  | EmptyString => EmptyString
  | String ch rest =>
      if Ascii.eqb ch "," then EmptyString else String ch (firstName rest)
  end.

(** [regexp.MatchString("^-.+", v)]: a dash followed by at least one
    character, and [.] does not match a line feed. *)
Definition looksLikeOption (v : string) : bool :=
  match v with
  | String "-" (String ch _) => negb (Ascii.eqb ch "010")
  | _ => false
  end.

Definition requiresValue (name : string) : error :=
  Errorf ("option --" ++ name ++ " requires a value").

(** [validateFlags] searches for StringFlags or StringSlice flags that never
    had a value set. *)
Fixpoint validateFlags (c : Context) (flags : list Flag) : option error :=
  match flags with
  | [] => None
  | flag :: rest =>
      match flag with
      | StringSliceFlag Name =>
          let name := firstName Name in
          if existsb looksLikeOption (StringSlice c name)
          then Some (requiresValue name)
          else validateFlags c rest
      | StringFlag Name =>
          let name := firstName Name in
          if looksLikeOption (String_ c name)
          then Some (requiresValue name)
          else validateFlags c rest
      | _ => validateFlags c rest
      end
  end.

(** [checkAllAndLatest] checks that --all and --latest are used correctly. *)
Definition checkAllAndLatest (c : Context) : option error :=
  let argLen := length (Args c) in
  if (Bool c "all" || Bool c "latest") && (0 <? argLen)%nat then
    Some (Errorf "no arguments are needed with --all or --latest")
  else if Bool c "all" && Bool c "latest" then
    Some (Errorf "--all and --latest cannot be used together")
  else if (argLen <? 1)%nat && negb (Bool c "all") && negb (Bool c "latest") then
    Some (Errorf "you must provide at least one pod name or id")
  else None.

(** The pending error is printed before a new one takes its place. *)
Definition flushPending (lastError : option error) : M unit :=
  match lastError with
  | Some e => FprintlnStderr e
  | None => ret tt
  end.

(** The loop of [getAllOrLatestContainers] over the explicit identifiers. *)
Fixpoint lookupArgs (args : list string) (containers : list ptr)
    (lastError : option error) : M (list ptr * option error) :=
  match args with
  | [] => ret (containers, lastError)
  | i :: rest =>
      ' (container, err) <- LookupContainer i ;;
      lastError' <-
        match err with
        | Some e =>
            flushPending lastError ;;;
            ret (Some (Wrapf e ("unable to find container " ++ i)))
        | None => ret lastError
        end ;;
      let containers' :=
        match container with
        | Some _ => (containers ++ [container])%list
        | None => containers
        end in
      lookupArgs rest containers' lastError'
  end.

(** [getAllOrLatestContainers]; a [filterState] of [None] is the -1 of the
    source, no filter. *)
Definition getAllOrLatestContainers (c : Context)
    (filterState : option ContainerStatus) (verb : string)
  : M (list ptr * option error) :=
  if Bool c "all" then
    ' (containers, err) <-
      match filterState with
      | Some wanted =>
          GetContainers
            [fun ctr => ' (state, _) <- State ctr ;;
                        ret (ContainerStatus_eqb state wanted)]
      | None => GetContainers []
      end ;;
    match err with
    | Some e => ret ([], Some (Wrapf e ("unable to get " ++ verb ++ " containers")))
    | None => ret (containers, None)
    end
  else if Bool c "latest" then
    ' (lastCtr, err) <- GetLatestContainer ;;
    match err with
    | Some e => ret ([], Some (Wrapf e "unable to get latest container"))
    | None => ret ([lastCtr], None)
    end
  else lookupArgs (Args c) [] None.

(* ================================================================== *)
(** ** [cmd/podman/start.go] *)

Definition LatestFlag : Flag := BoolFlag "latest, l".

Definition startFlags : list Flag :=
  [ BoolFlag "attach, a";
    StringFlag "detach-keys";
    BoolFlag "interactive, i";
    BoolTFlag "sig-proxy";
    LatestFlag ].

(** The value of [sigProxy] after the check of sig-proxy against attach,
    or the error the check returns. *)
Definition resolveSigProxy (c : Context) (attach : bool) : error + bool :=
  let sigProxy := BoolT c "sig-proxy" in
  if sigProxy && negb attach then
    if IsSet c "sig-proxy" then
      inl (Wrapf ErrInvalidArg "you cannot use sig-proxy without --attach")
    else inr false
  else inr sigProxy.

(** How an iteration of the loop over the targets ends: [continue] (or the
    end of the body) with the pending error, or [return]. *)
Inductive Ctl : Type :=
| Continue (lastError : option error)
| Return (err : option error).

(** The rollback after a failed start: the creation artifact is consulted
    and the container removed when it was created with remove-on-exit. *)
Definition removeIfRm (ctr : Container) : M unit :=
  ' (artifact, artifactErr) <- GetArtifact ctr "create-config" ;;
  match artifactErr with
  | None =>
      let (createArtifact, jsonErr) := jsonUnmarshal artifact zeroCreateConfig in
      match jsonErr with
      | Some _ =>
          logrusErrorf ("unable to detect if container " ++ ID ctr
                        ++ " should be deleted")
      | None => ret tt
      end ;;;
      if Rm createArtifact then
        rmErr <- RemoveContainer ctr true ;;
        match rmErr with
        | Some _ =>
            logrusErrorf ("unable to remove container " ++ ID ctr
                          ++ " after it failed to start")
        | None => ret tt
        end
      else ret tt
  | Some _ => ret tt
  end.

(** The body of the loop of [startCmd] for the target [container]. *)
Definition startBody (c : Context) (attach sigProxy : bool)
    (container : string) (lastError : option error) : M Ctl :=
  ' (ctr, err) <- LookupContainer container ;;
  match err with
  | Some e =>
      flushPending lastError ;;;
      ret (Continue (Some (Wrapf e ("unable to find container " ++ container))))
  | None =>
      match ctr with
      | None => panic
      | Some ctr =>
          ' (ctrState, err) <- State ctr ;;
          match err with
          | Some e => ret (Return (Some (Wrapf e "unable to get container state")))
          | None =>
              let ctrRunning := ContainerStatus_eqb ctrState ContainerStateRunning in
              if attach then
                let inputStream := Bool c "interactive" in
                err <- startAttachCtr ctr inputStream (String_ c "detach-keys")
                                      sigProxy (negb ctrRunning) ;;
                if ctrRunning then ret (Return err)
                else
                  match err with
                  | Some e =>
                      ret (Return (Some (Wrapf e ("unable to start container "
                                                  ++ ID ctr))))
                  | None =>
                      ' (ecode, err) <- Wait ctr ;;
                      match err with
                      | Some e =>
                          logrusErrorf ("unable to get exit code of container "
                                        ++ ID ctr ++ ": " ++ Quote (Error e))
                      | None => setExitCode ecode
                      end ;;;
                      err <- Cleanup ctr ;;
                      ret (Return err)
                  end
              else if ctrRunning then
                Println (ID ctr) ;;;
                ret (Continue lastError)
              else
                err <- Start ctr ;;
                match err with
                | Some e =>
                    removeIfRm ctr ;;;
                    flushPending lastError ;;;
                    ret (Continue (Some (Wrapf e ("unable to start container "
                                                  ++ Quote container))))
                | None =>
                    Println container ;;;
                    ret (Continue lastError)
                end
          end
      end
  end.

(** [for _, container := range args]. *)
Fixpoint startLoop (c : Context) (attach sigProxy : bool) (args : list string)
    (lastError : option error) : M (option error) :=
  match args with
  | [] => ret lastError
  | container :: rest =>
      ctl <- startBody c attach sigProxy container lastError ;;
      match ctl with
      | Continue lastError' => startLoop c attach sigProxy rest lastError'
      | Return err => ret err
      end
  end.

(** [startCmd] once the command line is validated: the runtime is created,
    the latest container joins the targets when asked for, and the targets
    are gone through. *)
Definition startTargets (c : Context) (attach sigProxy : bool)
  : M (option error) :=
  let args := Args c in
  err <- GetRuntime c ;;
  match err with
  | Some e => ret (Some (Wrapf e "error creating libpod runtime"))
  | None =>
      defer (Shutdown false)
        (if Bool c "latest" then
           ' (lastCtr, err) <- GetLatestContainer ;;
           match err with
           | Some e => ret (Some (Wrapf e "unable to get latest container"))
           | None =>
               match lastCtr with
               | None => panic
               | Some latest =>
                   startLoop c attach sigProxy (args ++ [ID latest])%list None
               end
           end
         else startLoop c attach sigProxy args None)
  end.

Definition startCmd (c : Context) : M (option error) :=
  let args := Args c in
  if (length args <? 1)%nat && negb (Bool c "latest") then
    ret (Some (Errorf "you must provide at least one container name or id"))
  else
  let attach := Bool c "attach" in
  if (1 <? length args)%nat && attach then
    ret (Some (Errorf "you cannot start and attach multiple containers at once"))
  else
  match validateFlags c startFlags with
  | Some err => ret (Some err)
  | None =>
  match resolveSigProxy c attach with
  | inl err => ret (Some err)
  | inr sigProxy => startTargets c attach sigProxy
  end
  end.

(* ================================================================== *)
(** ** [cmd/podman/containers_prune.go] *)

(** [shared.ParallelWorkerInput]: a unit of work of the Batch Executor. *)
Record ParallelWorkerInput : Type := {
  ContainerID : string;
  ParallelFunc : M (option error)
}.

(** [shared.ParallelExecuteWorkerPool]: what the executor does with the
    units it is given. *)
Variable executeWorkerPool :
  Z -> list ParallelWorkerInput -> M (list (string * option error) * Z).

(** [printParallelOutput]: the report made from the executor's results. *)
Variable printParallelOutput : list (string * option error) -> Z -> M (option error).

(** The executor is invoked: the invocation is recorded with the
    identifiers of the units submitted. *)
Definition ParallelExecuteWorkerPool (maxWorkers : Z)
    (funcs : list ParallelWorkerInput)
  : M (list (string * option error) * Z) :=
  call (EvParallelExecute maxWorkers (map ContainerID funcs)) (fun w => (tt, w)) ;;;
  executeWorkerPool maxWorkers funcs.

(** The [filter] closure of [pruneContainers]. *)
Definition pruneFilter (c : Container) : M bool :=
  ' (state, err) <- State c ;;
  if ContainerStatus_eqb state ContainerStateStopped
     || (ContainerStatus_eqb state ContainerStateExited
         && match err with None => true | Some _ => false end
         && String.eqb (PodID c) "")
  then ret true
  else ret false.

(** The unit built for a container to delete. *)
Definition deleteFunc (force : bool) (con : Container) : ParallelWorkerInput :=
  {| ContainerID := ID con;
     ParallelFunc := RemoveContainer con force |}.

(** The loop that builds [deleteFuncs]; a unit's closure calls [ID] on its
    container when it is built, which a nil pointer does not survive. *)
Fixpoint deleteFuncsOf (force : bool) (delContainers : list ptr)
    (deleteFuncs : list ParallelWorkerInput) : M (list ParallelWorkerInput) :=
  match delContainers with
  | [] => ret deleteFuncs
  | None :: _ => panic
  | Some con :: rest =>
      deleteFuncsOf force rest (deleteFuncs ++ [deleteFunc force con])%list
  end.

Definition pruneContainers (maxWorkers : Z) (force : bool) : M (option error) :=
  ' (delContainers, err) <- GetContainers [pruneFilter] ;;
  match err with
  | Some e => ret (Some e)
  | None =>
      if (length delContainers <? 1)%nat then ret None
      else
        deleteFuncs <- deleteFuncsOf force delContainers [] ;;
        ' (deleteErrors, errCount) <- ParallelExecuteWorkerPool maxWorkers deleteFuncs ;;
        printParallelOutput deleteErrors errCount
  end.

Definition pruneContainersCmd (c : Context) : M (option error) :=
  err <- GetRuntime c ;;
  match err with
  | Some e => ret (Some (Wrapf e "could not get runtime"))
  | None =>
      defer (Shutdown false)
        (let maxWorkers :=
           if GlobalIsSet c "max-workers" then GlobalInt c "max-workers"
           else Parallelize "rm" in
         pruneContainers maxWorkers (Bool c "force"))
  end.

End Engine.

Arguments Val {A} a.
Arguments Panic {A}.
Arguments world {W} s.
Arguments trace {W} s.
Arguments stdout {W} s.
Arguments stderr {W} s.
Arguments logrus {W} s.
Arguments exitCode {W} s.
Arguments initSt {W} w.
Arguments called {W} s e w'.
Arguments ret {W A} a _.
Arguments bind {W A B} m k _.
Arguments panic {W A} _.
Arguments call {W A} e f _.
Arguments rtGetRuntime {W} r.
Arguments rtShutdown {W} r.
Arguments rtLookupContainer {W} r.
Arguments rtGetLatestContainer {W} r.
Arguments rtAllContainers {W} r.
Arguments rtRemoveContainer {W} r.
Arguments ctrState {W} r.
Arguments ctrStart {W} r.
Arguments ctrGetArtifact {W} r.
Arguments ctrWait {W} r.
Arguments ctrCleanup {W} r.
Arguments rtStartAttachCtr {W} r.
Arguments ContainerID {W} p.
Arguments ParallelFunc {W} p.
Arguments Println {W} line _.
Arguments FprintlnStderr {W} err _.
Arguments logrusErrorf {W} msg _.
Arguments flushPending {W} lastError.
Arguments GetRuntime {W} R c _.
Arguments Shutdown {W} R force _.
Arguments LookupContainer {W} R idOrName _.
Arguments GetLatestContainer {W} R _.
Arguments RemoveContainer {W} R ctr force _.
Arguments State {W} R ctr _.
Arguments Start {W} R ctr _.
Arguments GetArtifact {W} R ctr name _.
Arguments Wait {W} R ctr _.
Arguments Cleanup {W} R ctr _.
Arguments startAttachCtr {W} R ctr stdin detachKeys sigProxy startContainer _.
Arguments allFilters {W} filters ctr.
Arguments keepContainers {W} filters ctrs.
Arguments GetContainers {W} R filters.
Arguments lookupArgs {W} R args containers lastError.
Arguments getAllOrLatestContainers {W} R c filterState verb.
Arguments removeIfRm {W} R jsonUnmarshal ctr.
Arguments startBody {W} R Quote jsonUnmarshal c attach sigProxy container lastError.
Arguments startLoop {W} R Quote jsonUnmarshal c attach sigProxy args lastError.
Arguments startTargets {W} R Quote jsonUnmarshal c attach sigProxy.
Arguments startCmd {W} R ErrInvalidArg Quote jsonUnmarshal c.
Arguments ParallelExecuteWorkerPool {W} executeWorkerPool maxWorkers funcs.
Arguments pruneFilter {W} R c.
Arguments deleteFunc {W} R force con.
Arguments deleteFuncsOf {W} R force delContainers deleteFuncs.
Arguments pruneContainers {W} R executeWorkerPool printParallelOutput maxWorkers force.
Arguments pruneContainersCmd {W} R Parallelize executeWorkerPool printParallelOutput c.

(* ================================================================== *)
(** ** What the runtime answered during a listing *)

(** The answers of the state queries made on the containers [ctrs], one
    after the other, from the outside state [w]. *)
Fixpoint observations {W : Type} (R : Runtime W) (ctrs : list Container) (w : W)
  : list (Container * (ContainerStatus * option error)) :=
  match ctrs with
  | [] => []
  | ctr :: rest =>
      let (answer, w') := ctrState R ctr w in
      (ctr, answer) :: observations R rest w'
  end.

(** The outside state once these queries are made. *)
Fixpoint afterObservations {W : Type} (R : Runtime W) (ctrs : list Container)
    (w : W) : W :=
  match ctrs with
  | [] => w
  | ctr :: rest => afterObservations R rest (snd (ctrState R ctr w))
  end.

(** The state of the command once these queries are made and recorded. *)
Definition afterListing {W : Type} (R : Runtime W) (s : St W)
    (ctrs : list Container) : St W :=
  {| world := afterObservations R ctrs (world s);
     trace := trace s ++ map EvState ctrs;
     stdout := stdout s; stderr := stderr s;
     logrus := logrus s; exitCode := exitCode s |}.

(** The prune criterion on an answer of the state query: reported as
    stopped, or reported as exited without an error and outside any pod. *)
Definition prunable (o : Container * (ContainerStatus * option error)) : bool :=
  let '(ctr, (state, err)) := o in
  match state, err with
  | ContainerStateStopped, _ => true
  | ContainerStateExited, None => String.eqb (PodID ctr) ""
  | _, _ => false
  end.

(** The removal calls among the events. *)
Definition isRemove (e : Event) : bool :=
  match e with EvRemoveContainer _ _ => true | _ => false end.

(* ================================================================== *)
(** ** A scripted runtime

    A runtime whose answers are fixed tables, used to run the commands on
    concrete command lines.  The outside has no state of its own. *)

Definition ctrA : Container := {| ID := "ida"; PodID := "" |}.
Definition ctrC : Container := {| ID := "idc"; PodID := "" |}.
Definition ctrR : Container := {| ID := "idr"; PodID := "" |}.
Definition ctrF : Container := {| ID := "idf"; PodID := "" |}.
Definition ctrG : Container := {| ID := "idg"; PodID := "" |}.
Definition ctrH : Container := {| ID := "idh"; PodID := "" |}.
Definition ctrX : Container := {| ID := "idx"; PodID := "" |}.
Definition ctrS : Container := {| ID := "ids"; PodID := "pod1" |}.
Definition ctrE : Container := {| ID := "ide"; PodID := "" |}.
Definition ctrP : Container := {| ID := "idp"; PodID := "pod1" |}.
Definition ctrQ : Container := {| ID := "idq"; PodID := "" |}.

Definition errNoSuchContainer : error := errorNew "no such container".
Definition errStateDB : error := errorNew "database is locked".
Definition errOCI : error := errorNew "oci runtime error".
Definition errNoArtifact : error := errorNew "no such artifact".
Definition errInvalidArgToy : error := errorNew "invalid argument".

(** Names and identifiers that resolve. *)
Definition toyTable : list (string * Container) :=
  [ ("a", ctrA); ("ida", ctrA); ("c", ctrC); ("idc", ctrC); ("r", ctrR);
    ("f", ctrF); ("g", ctrG); ("h", ctrH); ("x", ctrX) ].

Definition toyLookup (idOrName : string) : ptr * option error :=
  match lookupFlag idOrName toyTable with
  | Some ctr => (Some ctr, None)
  | None => (None, Some errNoSuchContainer)
  end.

Definition toyState (ctr : Container) : ContainerStatus * option error :=
  if String.eqb (ID ctr) "idr" then (ContainerStateRunning, None)
  else if String.eqb (ID ctr) "idx" then (ContainerStateUnknown, Some errStateDB)
  else if String.eqb (ID ctr) "ids" then (ContainerStateStopped, Some errStateDB)
  else if String.eqb (ID ctr) "ide" then (ContainerStateExited, Some errStateDB)
  else if String.eqb (ID ctr) "idp" then (ContainerStateExited, None)
  else if String.eqb (ID ctr) "idq" then (ContainerStateExited, None)
  else (ContainerStateCreated, None).

Definition toyStart (ctr : Container) : option error :=
  if String.eqb (ID ctr) "idf" || String.eqb (ID ctr) "idg"
     || String.eqb (ID ctr) "idh"
  then Some errOCI else None.

Definition toyArtifact (ctr : Container) (name : string) : string * option error :=
  if String.eqb (ID ctr) "idf" then ("rm", None)
  else if String.eqb (ID ctr) "idh" then ("", Some errNoArtifact)
  else ("keep", None).

Definition toyUnmarshal (artifact : string) (cfg : CreateConfig)
  : CreateConfig * option error :=
  if String.eqb artifact "rm" then ({| Rm := true |}, None)
  else if String.eqb artifact "keep" then ({| Rm := false |}, None)
  else (cfg, Some (errorNew "unexpected end of JSON input")).

(** Quoting of a string that needs no escape. *)
Definition toyQuote (s : string) : string :=
  String "034" (s ++ String "034" EmptyString).

Definition toyRuntime (all : list Container) : Runtime unit :=
  {| rtGetRuntime := fun _ w => (None, w);
     rtShutdown := fun _ w => (None, w);
     rtLookupContainer := fun idOrName w => (toyLookup idOrName, w);
     rtGetLatestContainer := fun w => ((Some ctrC, None), w);
     rtAllContainers := fun w => ((all, None), w);
     rtRemoveContainer := fun _ _ w => (None, w);
     ctrState := fun ctr w => (toyState ctr, w);
     ctrStart := fun ctr w => (toyStart ctr, w);
     ctrGetArtifact := fun ctr name w => (toyArtifact ctr name, w);
     ctrWait := fun _ w => ((0%Z, None), w);
     ctrCleanup := fun _ w => (None, w);
     rtStartAttachCtr := fun _ _ _ _ _ w => (None, w) |}.

(** An executor that runs the units one after the other. *)
Fixpoint toyExecute (maxWorkers : Z) (funcs : list (ParallelWorkerInput unit))
  : M unit (list (string * option error) * Z) :=
  match funcs with
  | [] => ret ([], 0%Z)
  | u :: rest =>
      bind (ParallelFunc u) (fun err =>
      bind (toyExecute maxWorkers rest) (fun '(errs, n) =>
      ret ((ContainerID u, err) :: errs,
           match err with Some _ => (n + 1)%Z | None => n end)))
  end.

(** A report that returns the last failure. *)
Fixpoint toyPrint (errs : list (string * option error)) (errCount : Z)
  : M unit (option error) :=
  match errs with
  | [] => ret None
  | (cid, res) :: rest =>
      bind (toyPrint rest errCount) (fun later =>
      match later, res with
      | Some e, _ => ret (Some e)
      | None, Some e => ret (Some e)
      | None, None => bind (Println cid) (fun _ => ret None)
      end)
  end.

(** Command lines. *)
Definition cmdline (args : list string) (bools : list (string * bool)) : Context :=
  {| Args := args; setBools := bools; setStrings := [];
     setStringSlices := []; setGlobalInts := [] |}.

(* ================================================================== *)
(** ** More of [cmd/podman/common.go] *)

Definition idTruncLength : nat := 12.

(** [shortID]: the identifier cut to [idTruncLength] bytes. *)
Definition shortID (id : string) : string :=
  if (idTruncLength <? String.length id)%nat
  then substring 0 idTruncLength id
  else id.

(** [strings.TrimPrefix(s, prefix)]: [s] without the leading [prefix], and
    [s] itself when it does not start with [prefix]. *)
Definition TrimPrefix (s p : string) : string :=
  if String.prefix p s
  then substring (String.length p) (String.length s - String.length p) s
  else s.

(** [scrubServer] removes 'http://' or 'https://' from the front of the
    server/registry string if either is there. *)
Definition scrubServer (server : string) : string :=
  let server := TrimPrefix server "https://" in
  TrimPrefix server "http://".

(** A value that [validateFlags] takes for an option: a dash followed by a
    character other than a line feed. *)
Definition optionLike (v : string) : Prop :=
  exists ch rest, v = String "-" (String ch rest) /\ ch <> "010"%char.

(** A declared flag holds no value that looks like an option. *)
Definition flagHasValue (c : Context) (flag : Flag) : Prop :=
  match flag with
  | StringFlag Name => ~ optionLike (String_ c (firstName Name))
  | StringSliceFlag Name =>
      forall v, In v (StringSlice c (firstName Name)) -> ~ optionLike v
  | _ => True
  end.

(** The answers of the lookups of the identifiers [args], one after the
    other, from the outside state [w]. *)
Fixpoint lookupAnswers {W : Type} (R : Runtime W) (args : list string) (w : W)
  : list (string * (ptr * option error)) :=
  match args with
  | [] => []
  | i :: rest =>
      let (answer, w') := rtLookupContainer R i w in
      (i, answer) :: lookupAnswers R rest w'
  end.

(** The outside state once these lookups are made. *)
Fixpoint afterLookups {W : Type} (R : Runtime W) (args : list string) (w : W) : W :=
  match args with
  | [] => w
  | i :: rest => afterLookups R rest (snd (rtLookupContainer R i w))
  end.

(** The handles among the answers: the pointers that are not nil. *)
Fixpoint resolved (answers : list (string * (ptr * option error))) : list ptr :=
  match answers with
  | [] => []
  | (_, (Some ctr, _)) :: rest => Some ctr :: resolved rest
  | (_, (None, _)) :: rest => resolved rest
  end.

(** The errors among the answers, each wrapped with its identifier. *)
Fixpoint lookupErrors (answers : list (string * (ptr * option error)))
  : list error :=
  match answers with
  | [] => []
  | (i, (_, Some e)) :: rest =>
      Wrapf e ("unable to find container " ++ i) :: lookupErrors rest
  | (_, (_, None)) :: rest => lookupErrors rest
  end.

(** The last of a sequence of errors, [pending] when there is none. *)
Definition lastOf (errs : list error) (pending : option error) : option error :=
  fold_left (fun _ e => Some e) errs pending.

Definition pendingList (pending : option error) : list error :=
  match pending with Some e => [e] | None => [] end.

(** The answers whose reported state is [wanted]; the error that came with
    the state is not looked at. *)
Definition hasState (wanted : ContainerStatus)
    (o : Container * (ContainerStatus * option error)) : bool :=
  ContainerStatus_eqb (fst (snd o)) wanted.

(* ================================================================== *)
(** ** Kinds of calls *)

Definition isShutdown (e : Event) : bool :=
  match e with EvShutdown _ => true | _ => false end.

Definition isGetRuntime (e : Event) : bool :=
  match e with EvGetRuntime => true | _ => false end.

Definition isLookup (e : Event) : bool :=
  match e with EvLookupContainer _ => true | _ => false end.

(** The calls the loop of [start] may issue: lookups and state queries in
    both modes; the attach session, the wait and the cleanup with attach
    only; the start, the artifact and a forced removal without attach
    only. *)
Definition startLoopEvent (attach : bool) (e : Event) : bool :=
  match e with
  | EvLookupContainer _ | EvState _ => true
  | EvStartAttach _ _ _ _ _ | EvWait _ | EvCleanup _ => attach
  | EvStart _ | EvGetArtifact _ _ => negb attach
  | EvRemoveContainer _ force => negb attach && force
  | _ => false
  end.

(** The calls of [start] between the creation of the runtime and its
    shutdown. *)
Definition startTargetsEvent (attach : bool) (e : Event) : bool :=
  match e with
  | EvGetLatestContainer => true
  | _ => startLoopEvent attach e
  end.

(* ================================================================== *)
(** ** More scripted runtimes *)

(** The scripted runtime with a chosen answer for its creation, for the
    latest container and for the listing; an attach session that has to
    start the container fails when the start of the container does. *)
Definition toyRuntimeWith (created : option error) (latest : ptr * option error)
    (listing : list Container * option error) : Runtime unit :=
  {| rtGetRuntime := fun _ w => (created, w);
     rtShutdown := fun _ w => (None, w);
     rtLookupContainer := fun idOrName w => (toyLookup idOrName, w);
     rtGetLatestContainer := fun w => (latest, w);
     rtAllContainers := fun w => (listing, w);
     rtRemoveContainer := fun _ _ w => (None, w);
     ctrState := fun ctr w => (toyState ctr, w);
     ctrStart := fun ctr w => (toyStart ctr, w);
     ctrGetArtifact := fun ctr name w => (toyArtifact ctr name, w);
     ctrWait := fun _ w => ((3%Z, None), w);
     ctrCleanup := fun _ w => (None, w);
     rtStartAttachCtr :=
       fun ctr _ _ _ startContainer w =>
         (if startContainer then toyStart ctr else None, w) |}.

Definition errNoRuntime : error := errorNew "cannot connect to the runtime".
Definition errNoContainers : error := errorNew "no containers to act on".

(** A command line with string options. *)
Definition cmdlineStrings (args : list string) (bools : list (string * bool))
    (strings : list (string * string)) : Context :=
  {| Args := args; setBools := bools; setStrings := strings;
     setStringSlices := []; setGlobalInts := [] |}.

(* ================================================================== *)
(** ** What the runtime promises, and what a target leaves in the trace *)

(** [State()] reports [ContainerStateUnknown] when it returns an error; in
    particular an answer of exited comes without an error. *)
Definition exitedWithoutError
    (o : Container * (ContainerStatus * option error)) : Prop :=
  fst (snd o) = ContainerStateExited -> snd (snd o) = None.

(** The calls of [start] for one target: the lookup of the target, then
    calls of the mode, none of which is a lookup, with at most one start and
    no more removals than starts. *)
Definition targetCalls (attach : bool) (container : string)
    (seg : list Event) : Prop :=
  exists rest,
    seg = EvLookupContainer container :: rest
    /\ forallb (startLoopEvent attach) rest = true
    /\ count isLookup rest = 0
    /\ count isStart rest <= 1
    /\ count isRemove rest <= count isStart rest.


(** The command line of a command that declares no flags, as
    [pruneContainersCommand]: the parser refuses every flag, so none is
    set. *)
Definition declaresNoFlags (c : Context) : Prop :=
  setBools c = [] /\ setStrings c = [] /\ setStringSlices c = [].

(** A stopped container, in a pod. *)
Definition ctrT : Container := {| ID := "idt"; PodID := "pod1" |}.

(** States that come without an error. *)
Definition toyStateSound (ctr : Container) : ContainerStatus * option error :=
  if String.eqb (ID ctr) "idt" then (ContainerStateStopped, None)
  else if String.eqb (ID ctr) "idr" then (ContainerStateRunning, None)
  else if String.eqb (ID ctr) "idp" then (ContainerStateExited, None)
  else if String.eqb (ID ctr) "idq" then (ContainerStateExited, None)
  else (ContainerStateCreated, None).

Definition toyRuntimeSound (all : list Container) : Runtime unit :=
  {| rtGetRuntime := fun _ w => (None, w);
     rtShutdown := fun _ w => (None, w);
     rtLookupContainer := fun idOrName w => (toyLookup idOrName, w);
     rtGetLatestContainer := fun w => ((Some ctrC, None), w);
     rtAllContainers := fun w => ((all, None), w);
     rtRemoveContainer := fun _ _ w => (None, w);
     ctrState := fun ctr w => (toyStateSound ctr, w);
     ctrStart := fun ctr w => (toyStart ctr, w);
     ctrGetArtifact := fun ctr name w => (toyArtifact ctr name, w);
     ctrWait := fun _ w => ((0%Z, None), w);
     ctrCleanup := fun _ w => (None, w);
     rtStartAttachCtr := fun _ _ _ _ _ w => (None, w) |}.

(** A command line of the application with --max-workers and no flag of
    the command. *)
Definition cmdlineGlobalWorkers (workers : Z) : Context :=
  {| Args := []; setBools := []; setStrings := [];
     setStringSlices := []; setGlobalInts := [("max-workers", workers)] |}.

(* ================================================================== *)
(** ** Properties *)

Section Properties.

Local Open Scope list_scope.

Context {W : Type} (R : Runtime W).
Variable ErrInvalidArg : error.
Variable Quote : string -> string.
Variable jsonUnmarshal : string -> CreateConfig -> CreateConfig * option error.

(** *** Traces *)

Lemma trace_app3 (t : list Event) (a b c : Event) :
  ((t ++ [a]) ++ [b]) ++ [c] = t ++ [a; b; c].
Proof. now rewrite <- !app_assoc. Qed.

Lemma mentions_wrapped_lookup (e : error) (id : string) :
  mentions (Wrapf e ("unable to find container " ++ id)%string) id.
Proof.
  exists "unable to find container ", (": " ++ Error e)%string.
  reflexivity.
Qed.

(** *** Explicit selection *)

(** The loop over the identifiers always returns, extends the sequence it
    was given, and appends no nil to it. *)
Lemma lookupArgs_appends_no_nil (args : list string) :
  forall containers lastError s,
  exists more e s',
    lookupArgs R args containers lastError s = (Val (containers ++ more, e), s')
    /\ Forall (fun p : ptr => p <> None) more.
Proof.
  induction args as [|i rest IH]; intros containers lastError s.
  - exists [], lastError, s. rewrite app_nil_r. split; [reflexivity|constructor].
  - cbn [lookupArgs]. unfold bind at 1. unfold LookupContainer, call.
    destruct (rtLookupContainer R i (world s)) as [[container err] w1].
    set (s1 := called s _ w1).
    assert (Hle : exists le s2,
      (match err with
       | Some e => bind (flushPending lastError)
                     (fun _ => ret (Some (Wrapf e ("unable to find container " ++ i)%string)))
       | None => ret lastError
       end) s1 = (Val le, s2)).
    { destruct err as [e|]; [|now eexists _, _].
      destruct lastError; cbn; now eexists _, _. }
    destruct Hle as (le & s2 & Hle). unfold bind at 1. rewrite Hle.
    destruct container as [h|].
    + destruct (IH (containers ++ [Some h]) le s2) as (more & e & s' & Heq & Hnn).
      exists (Some h :: more), e, s'. split.
      * rewrite <- app_assoc in Heq. exact Heq.
      * constructor; [discriminate|exact Hnn].
    + destruct (IH containers le s2) as (more & e & s' & Heq & Hnn).
      exists more, e, s'. split; [exact Heq|exact Hnn].
Qed.

(** *** Prune *)

(** The filter of prune answers by the criterion [prunable] on what the
    state query returned. *)
Lemma pruneFilter_run (ctr : Container) (s : St W) :
  pruneFilter R ctr s
  = (Val (prunable (ctr, fst (ctrState R ctr (world s)))),
     called s (EvState ctr) (snd (ctrState R ctr (world s)))).
Proof.
  unfold pruneFilter, bind, State, call.
  destruct (ctrState R ctr (world s)) as [[state err] w1]. cbn.
  destruct state, err; cbn; try reflexivity;
    destruct (String.eqb (PodID ctr) ""); reflexivity.
Qed.

Lemma afterListing_cons (s : St W) (ctr : Container) (rest : list Container) :
  afterListing R (called s (EvState ctr) (snd (ctrState R ctr (world s)))) rest
  = afterListing R s (ctr :: rest).
Proof.
  unfold afterListing, called. cbn. now rewrite <- app_assoc.
Qed.

(** The containers kept by a listing under the prune filter are those whose
    answer qualifies, in the runtime's order. *)
Lemma keepContainers_prune (ctrs : list Container) :
  forall s,
    keepContainers [pruneFilter R] ctrs s
    = (Val (map fst (filter prunable (observations R ctrs (world s)))),
       afterListing R s ctrs).
Proof.
  induction ctrs as [|ctr rest IH]; intros s.
  - cbn. unfold ret, afterListing. destruct s; cbn. now rewrite app_nil_r.
  - cbn [keepContainers allFilters observations]. unfold bind at 1 2.
    rewrite pruneFilter_run.
    destruct (ctrState R ctr (world s)) as [answer w1] eqn:Hq. cbn [fst snd].
    assert (Hw : w1 = snd (ctrState R ctr (world s))) by now rewrite Hq.
    destruct (prunable (ctr, answer)) eqn:Hp; cbn [ret];
      unfold bind; rewrite IH; cbn [world called];
      cbn [filter]; rewrite Hp; cbn [map fst]; unfold ret;
      rewrite Hw, afterListing_cons; reflexivity.
Qed.

Lemma GetContainers_prune (s : St W) (all : list Container) (w1 : W) :
  rtAllContainers R (world s) = ((all, None), w1) ->
  GetContainers R [pruneFilter R] s
  = (Val (map Some (map fst (filter prunable (observations R all w1))), None),
     afterListing R (called s EvGetContainers w1) all).
Proof.
  intros Hall. unfold GetContainers, bind, call. rewrite Hall.
  rewrite keepContainers_prune. reflexivity.
Qed.

Lemma deleteFuncsOf_run (force : bool) (cons : list Container) :
  forall acc (s : St W),
    deleteFuncsOf R force (map Some cons) acc s
    = (Val (acc ++ map (deleteFunc R force) cons), s).
Proof.
  induction cons as [|con rest IH]; intros acc s; cbn.
  - now rewrite app_nil_r.
  - rewrite IH. now rewrite <- app_assoc.
Qed.

(** The prune criterion, spelled out. *)
Lemma prunable_iff (ctr : Container) (state : ContainerStatus)
    (err : option error) :
  prunable (ctr, (state, err)) = true
  <-> state = ContainerStateStopped
      \/ (state = ContainerStateExited /\ err = None /\ PodID ctr = "").
Proof.
  unfold prunable. split.
  - destruct state, err; try discriminate; auto.
    intros H. apply String.eqb_eq in H. auto.
  - intros [->|(-> & -> & Hpod)]; [reflexivity|].
    now apply String.eqb_eq.
Qed.

(** With a selection that is not empty, prune invokes the executor on the
    units built from it and reports what the executor returns. *)
Lemma pruneContainers_run
    (executeWorkerPool :
       Z -> list (ParallelWorkerInput W) -> M W (list (string * option error) * Z))
    (printParallelOutput : list (string * option error) -> Z -> M W (option error))
    (maxWorkers : Z) (force : bool) (s s1 : St W) (selected : list Container) :
  GetContainers R [pruneFilter R] s = (Val (map Some selected, None), s1) ->
  selected <> [] ->
  pruneContainers R executeWorkerPool printParallelOutput maxWorkers force s
  = bind (executeWorkerPool maxWorkers (map (deleteFunc R force) selected))
         (fun r => printParallelOutput (fst r) (snd r))
         (called s1 (EvParallelExecute maxWorkers (map ID selected)) (world s1)).
Proof.
  intros Hget Hne. unfold pruneContainers. unfold bind at 1. rewrite Hget.
  destruct selected as [|con rest]; [congruence|].
  change (length (map Some (con :: rest)) <? 1)%nat with false. cbv iota.
  unfold bind at 1. rewrite (deleteFuncsOf_run force (con :: rest) [] s1).
  cbn [app]. unfold bind at 1. unfold ParallelExecuteWorkerPool.
  unfold bind at 1. unfold call. cbn [fst snd].
  rewrite map_map. cbn [ContainerID deleteFunc].
  unfold bind.
  destruct (executeWorkerPool maxWorkers _ _) as [[[errs n]|] s2]; reflexivity.
Qed.

(** C7: of the containers the runtime lists, prune selects a container if
    and only if its state is stopped, or its state is exited and it is in
    no pod, in the runtime's order; [State()] reports unknown when it
    returns an error, so an answer of exited comes without one.  Each
    selected container gives exactly one unit, tagged with its identifier,
    whose action is the removal of that container with the force flag the
    workflow was given; and when the selection is not empty these units are
    what the executor is invoked with. *)
Theorem prune_selects_and_builds_units
    (executeWorkerPool :
       Z -> list (ParallelWorkerInput W) -> M W (list (string * option error) * Z))
    (printParallelOutput : list (string * option error) -> Z -> M W (option error))
    (maxWorkers : Z) (force : bool) (s : St W)
    (all : list Container) (w1 : W) :
  rtAllContainers R (world s) = ((all, None), w1) ->
  Forall exitedWithoutError (observations R all w1) ->
  let answers := observations R all w1 in
  let selected := map fst (filter prunable answers) in
  let s1 := afterListing R (called s EvGetContainers w1) all in
  let units := map (deleteFunc R force) selected in
  map fst answers = all
  /\ (forall ctr state err,
        In (ctr, (state, err)) answers ->
        (In (ctr, (state, err)) (filter prunable answers)
         <-> state = ContainerStateStopped
             \/ (state = ContainerStateExited /\ PodID ctr = "")))
  /\ GetContainers R [pruneFilter R] s = (Val (map Some selected, None), s1)
  /\ deleteFuncsOf R force (map Some selected) [] s1 = (Val units, s1)
  /\ length units = length selected
  /\ map ContainerID units = map ID selected
  /\ map ParallelFunc units = map (fun con => RemoveContainer R con force) selected
  /\ (selected <> [] ->
      pruneContainers R executeWorkerPool printParallelOutput maxWorkers force s
      = bind (executeWorkerPool maxWorkers units)
             (fun r => printParallelOutput (fst r) (snd r))
             (called s1 (EvParallelExecute maxWorkers (map ID selected))
                     (world s1))).
Proof.
  intros Hall Hcontract answers selected s1 units.
  split; [|split; [|split; [|split; [|split; [|split; [|split]]]]]].
  - unfold answers. clear. generalize w1.
    induction all as [|ctr rest IH]; intros w; cbn; [reflexivity|].
    destruct (ctrState R ctr w) as [answer w']. cbn. now rewrite IH.
  - intros ctr state err Hin. rewrite filter_In, prunable_iff.
    pose proof (proj1 (Forall_forall _ _) Hcontract _ Hin) as Hc.
    unfold exitedWithoutError in Hc. cbn in Hc. intuition.
  - now apply GetContainers_prune.
  - apply (deleteFuncsOf_run force selected []).
  - unfold units. now rewrite length_map.
  - unfold units. rewrite map_map. reflexivity.
  - unfold units. rewrite map_map. reflexivity.
  - intros Hne. apply pruneContainers_run; [|exact Hne].
    now apply GetContainers_prune.
Qed.

Lemma count_app (p : Event -> bool) (t u : list Event) :
  count p (t ++ u) = count p t + count p u.
Proof. unfold count. now rewrite filter_app, length_app. Qed.

Lemma count_map_EvState (p : Event -> bool) (ctrs : list Container) :
  (forall ctr, p (EvState ctr) = false) -> count p (map EvState ctrs) = 0.
Proof.
  intros Hp. unfold count. induction ctrs as [|ctr rest IH]; [reflexivity|].
  cbn. now rewrite Hp.
Qed.

(** C9: when no listed container qualifies, prune returns nil; the only
    calls it made are the listing and the state queries of the filter: the
    executor is not invoked, no removal is issued, nothing is printed. *)
Theorem prune_nothing_qualifies
    (executeWorkerPool :
       Z -> list (ParallelWorkerInput W) -> M W (list (string * option error) * Z))
    (printParallelOutput : list (string * option error) -> Z -> M W (option error))
    (maxWorkers : Z) (force : bool) (s : St W)
    (all : list Container) (w1 : W) :
  rtAllContainers R (world s) = ((all, None), w1) ->
  filter prunable (observations R all w1) = [] ->
  exists s',
    pruneContainers R executeWorkerPool printParallelOutput maxWorkers force s
    = (Val None, s')
    /\ trace s' = trace s ++ EvGetContainers :: map EvState all
    /\ count isParallelExecute (trace s') = count isParallelExecute (trace s)
    /\ count isRemove (trace s') = count isRemove (trace s)
    /\ stdout s' = stdout s
    /\ stderr s' = stderr s.
Proof.
  intros Hall Hnone.
  exists (afterListing R (called s EvGetContainers w1) all).
  split.
  - unfold pruneContainers. unfold bind at 1.
    rewrite (GetContainers_prune s all w1 Hall), Hnone. reflexivity.
  - assert (Ht : trace (afterListing R (called s EvGetContainers w1) all)
                 = trace s ++ EvGetContainers :: map EvState all).
    { cbn. now rewrite <- app_assoc. }
    rewrite Ht. repeat split.
    + rewrite count_app.
      change (EvGetContainers :: map EvState all)
        with ([EvGetContainers] ++ map EvState all).
      rewrite count_app, count_map_EvState by reflexivity. cbn. lia.
    + rewrite count_app.
      change (EvGetContainers :: map EvState all)
        with ([EvGetContainers] ++ map EvState all).
      rewrite count_app, count_map_EvState by reflexivity. cbn. lia.
Qed.

(** C10: the filter of prune treats the error of the state query
    differently in its two branches: a container reported as stopped
    qualifies whatever the error is, while a container reported as exited
    qualifies exactly when the query returned no error and the container is
    in no pod. *)
Theorem pruneFilter_error_asymmetry
    (ctr : Container) (s : St W) (state : ContainerStatus)
    (err : option error) (w1 : W) :
  ctrState R ctr (world s) = ((state, err), w1) ->
  (state = ContainerStateStopped -> fst (pruneFilter R ctr s) = Val true)
  /\ (state = ContainerStateExited ->
      (fst (pruneFilter R ctr s) = Val true <-> err = None /\ PodID ctr = "")).
Proof.
  intros Hq. rewrite pruneFilter_run, Hq. cbn [fst]. split.
  - intros ->. reflexivity.
  - intros ->. split.
    + intros H. injection H as H.
      change (prunable (ctr, (ContainerStateExited, err)) = true) in H.
      apply prunable_iff in H.
      destruct H as [H|(_ & H1 & H2)]; [discriminate|auto].
    + intros [-> Hpod]. f_equal. apply prunable_iff. right. auto.
Qed.

(** *** Start *)

(** Only the detach-keys option of [start] takes a value. *)
Lemma validateFlags_startFlags (c : Context) :
  validateFlags c startFlags
  = if looksLikeOption (String_ c "detach-keys")
    then Some (requiresValue "detach-keys") else None.
Proof. reflexivity. Qed.

Lemma IsSet_false_BoolT (c : Context) (name : string) :
  IsSet c name = false -> BoolT c name = true.
Proof.
  unfold IsSet, BoolT. destruct (lookupFlag name (setBools c)); [|reflexivity].
  discriminate.
Qed.

(** C3: without attach, a sig-proxy explicitly set to true makes [start]
    fail on its arguments and leave the state as it found it, so before the
    runtime is created or called; the error is the invalid-argument one
    whenever the checks that come first (a target is named, detach-keys has
    a value) pass.  A sig-proxy that is not set is true by default, is
    resolved to false, and the command goes on to its targets. *)
Theorem sig_proxy_needs_attach (c : Context) (s : St W) :
  Bool c "attach" = false ->
  (IsSet c "sig-proxy" = true -> BoolT c "sig-proxy" = true ->
   exists e,
     startCmd R ErrInvalidArg Quote jsonUnmarshal c s = (Val (Some e), s)
     /\ (e = Errorf "you must provide at least one container name or id"
         \/ e = requiresValue "detach-keys"
         \/ e = Wrapf ErrInvalidArg "you cannot use sig-proxy without --attach")
     /\ ((length (Args c) <? 1)%nat && negb (Bool c "latest") = false ->
         validateFlags c startFlags = None ->
         e = Wrapf ErrInvalidArg "you cannot use sig-proxy without --attach"
         /\ Cause e = Cause ErrInvalidArg))
  /\ (IsSet c "sig-proxy" = false ->
      BoolT c "sig-proxy" = true
      /\ resolveSigProxy ErrInvalidArg c false = inr false
      /\ ((length (Args c) <? 1)%nat && negb (Bool c "latest") = false ->
          validateFlags c startFlags = None ->
          startCmd R ErrInvalidArg Quote jsonUnmarshal c s
          = startTargets R Quote jsonUnmarshal c false false s)).
Proof.
  intros Hattach. split.
  - intros Hset Hval. unfold startCmd. rewrite Hattach, andb_false_r.
    destruct ((length (Args c) <? 1)%nat && negb (Bool c "latest")) eqn:Hargs.
    { eexists. split; [reflexivity|]. split; [auto|discriminate]. }
    rewrite validateFlags_startFlags.
    destruct (looksLikeOption (String_ c "detach-keys")).
    { eexists. split; [reflexivity|]. split; [auto|discriminate]. }
    unfold resolveSigProxy. rewrite Hval, Hset. cbn.
    eexists. split; [reflexivity|]. split; [auto|]. intros _ _. split; reflexivity.
  - intros Hunset. pose proof (IsSet_false_BoolT c _ Hunset) as Hval.
    split; [exact Hval|].
    assert (Hres : resolveSigProxy ErrInvalidArg c false = inr false).
    { unfold resolveSigProxy. now rewrite Hval, Hunset. }
    split; [exact Hres|]. intros Hargs Hflags.
    unfold startCmd. rewrite Hargs, Hattach, andb_false_r, Hflags, Hres.
    reflexivity.
Qed.

Lemma trace_app2 (t : list Event) (a b : Event) :
  (t ++ [a]) ++ [b] = t ++ [a; b].
Proof. now rewrite <- app_assoc. Qed.

Lemma Container_eqb_refl (ctr : Container) : Container_eqb ctr ctr = true.
Proof. unfold Container_eqb. now rewrite !String.eqb_refl. Qed.

Lemma not_running (state : ContainerStatus) :
  state <> ContainerStateRunning ->
  ContainerStatus_eqb state ContainerStateRunning = false.
Proof. destruct state; intros H; try reflexivity; congruence. Qed.

(** C4: without attach, a target that resolves to a running container is a
    no-op: its identifier is printed, the only calls are the lookup and the
    state query (no start), the pending error is left as it was, and the
    loop goes on with the remaining targets. *)
Theorem start_running_is_noop
    (c : Context) (sigProxy : bool) (container : string) (rest : list string)
    (lastError : option error) (s : St W) (ctr : Container) (w1 w2 : W) :
  rtLookupContainer R container (world s) = ((Some ctr, None), w1) ->
  ctrState R ctr w1 = ((ContainerStateRunning, None), w2) ->
  exists s',
    startBody R Quote jsonUnmarshal c false sigProxy container lastError s
    = (Val (Continue lastError), s')
    /\ stdout s' = stdout s ++ [ID ctr]
    /\ stderr s' = stderr s
    /\ trace s' = trace s ++ [EvLookupContainer container; EvState ctr]
    /\ count isStart (trace s') = count isStart (trace s)
    /\ world s' = w2
    /\ startLoop R Quote jsonUnmarshal c false sigProxy (container :: rest)
                 lastError s
       = startLoop R Quote jsonUnmarshal c false sigProxy rest lastError s'.
Proof.
  intros Hlookup Hstate.
  assert (Hbody : exists s',
    startBody R Quote jsonUnmarshal c false sigProxy container lastError s
    = (Val (Continue lastError), s')
    /\ stdout s' = stdout s ++ [ID ctr]
    /\ stderr s' = stderr s
    /\ trace s' = trace s ++ [EvLookupContainer container; EvState ctr]
    /\ world s' = w2).
  { unfold startBody, bind, LookupContainer, State, call.
    rewrite Hlookup. cbn. rewrite Hstate. cbn.
    eexists. split; [reflexivity|]. cbn. repeat split. apply trace_app2. }
  destruct Hbody as (s' & Hbody & Hout & Herr & Htrace & Hworld).
  exists s'. repeat split; try assumption.
  - rewrite Htrace, count_app. cbn. lia.
  - cbn [startLoop]. unfold bind at 1. now rewrite Hbody.
Qed.

(** The body of the loop on a target whose start fails, without attach. *)
Lemma startBody_failed_start
    (c : Context) (sigProxy : bool) (container : string)
    (lastError : option error) (s : St W) (ctr : Container)
    (state : ContainerStatus) (e : error) (artifact : string)
    (artifactErr : option error) (w1 w2 w3 w4 : W) :
  rtLookupContainer R container (world s) = ((Some ctr, None), w1) ->
  ctrState R ctr w1 = ((state, None), w2) ->
  state <> ContainerStateRunning ->
  ctrStart R ctr w2 = (Some e, w3) ->
  ctrGetArtifact R ctr "create-config" w3 = ((artifact, artifactErr), w4) ->
  exists s' added,
    startBody R Quote jsonUnmarshal c false sigProxy container lastError s
    = (Val (Continue (Some (Wrapf e ("unable to start container "
                                     ++ Quote container)%string))), s')
    /\ trace s' = trace s ++ added
    /\ (artifactErr = None ->
        Rm (fst (jsonUnmarshal artifact zeroCreateConfig)) = true ->
        filter isRemove added = [EvRemoveContainer ctr true]
        /\ count (isForcedRemoveOf ctr) added = 1)
    /\ (artifactErr = None ->
        Rm (fst (jsonUnmarshal artifact zeroCreateConfig)) = false ->
        filter isRemove added = [])
    /\ (artifactErr <> None -> filter isRemove added = []).
Proof.
  intros Hlookup Hstate Hnr Hstart Hart.
  unfold startBody, bind, LookupContainer, State, Start, call.
  rewrite Hlookup. cbn. rewrite Hstate. cbn.
  rewrite (not_running state Hnr). cbn. rewrite Hstart. cbn.
  unfold removeIfRm, bind, GetArtifact, call. cbn. rewrite Hart. cbn.
  destruct artifactErr as [ae|].
  - destruct lastError; cbn; eexists _, _;
      (split; [reflexivity|]); cbn;
      (split; [rewrite <- !app_assoc; cbn [app]; reflexivity|]);
      (split; [discriminate|split; [discriminate|reflexivity]]).
  - destruct (jsonUnmarshal artifact zeroCreateConfig) as [cfg jsonErr].
    cbn [fst]. destruct cfg as [rm].
    destruct rm.
    + unfold RemoveContainer, call.
      destruct jsonErr; cbn;
        destruct (rtRemoveContainer R ctr true _) as [rmErr w5];
        destruct rmErr, lastError; cbn; eexists _, _;
        (split; [reflexivity|]); cbn;
        (split; [rewrite <- !app_assoc; cbn [app]; reflexivity|]);
        (split; [intros _ _; cbn; rewrite Container_eqb_refl; split; reflexivity
                |split; [discriminate|congruence]]).
    + destruct jsonErr, lastError; cbn; eexists _, _;
        (split; [reflexivity|]); cbn;
        (split; [rewrite <- !app_assoc; cbn [app]; reflexivity|]);
        (split; [discriminate|split; [reflexivity|reflexivity]]).
Qed.

(** C2: without attach, when the start of a target fails, the removal calls
    issued are: one forced removal of that container when its creation
    artifact loads and carries remove-on-exit after decoding; none when the
    artifact does not load, and none when it does not carry the policy.
    Whatever the loading, the decoding and the removal return, the error
    recorded for the target is the start error, with which the loop goes on
    to the remaining targets. *)
Theorem failed_start_rolls_back
    (c : Context) (sigProxy : bool) (container : string) (rest : list string)
    (lastError : option error) (s : St W) (ctr : Container)
    (state : ContainerStatus) (e : error) (artifact : string)
    (artifactErr : option error) (w1 w2 w3 w4 : W) :
  rtLookupContainer R container (world s) = ((Some ctr, None), w1) ->
  ctrState R ctr w1 = ((state, None), w2) ->
  state <> ContainerStateRunning ->
  ctrStart R ctr w2 = (Some e, w3) ->
  ctrGetArtifact R ctr "create-config" w3 = ((artifact, artifactErr), w4) ->
  exists s' added,
    startBody R Quote jsonUnmarshal c false sigProxy container lastError s
    = (Val (Continue (Some (Wrapf e ("unable to start container "
                                     ++ Quote container)%string))), s')
    /\ trace s' = trace s ++ added
    /\ (artifactErr = None ->
        Rm (fst (jsonUnmarshal artifact zeroCreateConfig)) = true ->
        filter isRemove added = [EvRemoveContainer ctr true]
        /\ count (isForcedRemoveOf ctr) added = 1)
    /\ (artifactErr = None ->
        Rm (fst (jsonUnmarshal artifact zeroCreateConfig)) = false ->
        filter isRemove added = [])
    /\ (artifactErr <> None -> filter isRemove added = [])
    /\ startLoop R Quote jsonUnmarshal c false sigProxy (container :: rest)
                 lastError s
       = startLoop R Quote jsonUnmarshal c false sigProxy rest
                   (Some (Wrapf e ("unable to start container "
                                   ++ Quote container)%string)) s'.
Proof.
  intros Hlookup Hstate Hnr Hstart Hart.
  destruct (startBody_failed_start c sigProxy container lastError s ctr state
              e artifact artifactErr w1 w2 w3 w4 Hlookup Hstate Hnr Hstart Hart)
    as (s' & added & Hbody & Htrace & Hrm & Hkeep & Hnoart).
  exists s', added. repeat split; try assumption.
  - now apply Hrm.
  - now apply Hrm.
  - cbn [startLoop]. unfold bind at 1. now rewrite Hbody.
Qed.

(** A target that does not resolve is recorded as the pending error, the
    error that was pending is printed, and the loop goes on. *)
Lemma start_lookup_failure_continues
    (c : Context) (attach sigProxy : bool) (container : string)
    (rest : list string) (lastError : option error) (s : St W)
    (p : ptr) (e : error) (w1 : W) :
  rtLookupContainer R container (world s) = ((p, Some e), w1) ->
  exists s',
    startBody R Quote jsonUnmarshal c attach sigProxy container lastError s
    = (Val (Continue (Some (Wrapf e ("unable to find container "
                                     ++ container)%string))), s')
    /\ trace s' = trace s ++ [EvLookupContainer container]
    /\ stdout s' = stdout s
    /\ stderr s' = stderr s ++ match lastError with
                               | Some pending => [Error pending]
                               | None => []
                               end
    /\ startLoop R Quote jsonUnmarshal c attach sigProxy (container :: rest)
                 lastError s
       = startLoop R Quote jsonUnmarshal c attach sigProxy rest
                   (Some (Wrapf e ("unable to find container "
                                   ++ container)%string)) s'.
Proof.
  intros Hlookup. cbn [startLoop].
  unfold startBody, bind, LookupContainer, call. rewrite Hlookup.
  destruct lastError; cbn; eexists; repeat split.
  now rewrite app_nil_r.
Qed.

(** A target whose state query fails ends the command at once: the error
    of the query is returned and the remaining targets are not looked at. *)
Lemma start_state_failure_returns
    (c : Context) (attach sigProxy : bool) (container : string)
    (rest : list string) (lastError : option error) (s : St W)
    (ctr : Container) (state : ContainerStatus) (e : error) (w1 w2 : W) :
  rtLookupContainer R container (world s) = ((Some ctr, None), w1) ->
  ctrState R ctr w1 = ((state, Some e), w2) ->
  exists s',
    startLoop R Quote jsonUnmarshal c attach sigProxy (container :: rest)
              lastError s
    = (Val (Some (Wrapf e "unable to get container state")), s')
    /\ trace s' = trace s ++ [EvLookupContainer container; EvState ctr]
    /\ stdout s' = stdout s
    /\ stderr s' = stderr s.
Proof.
  intros Hlookup Hstate. cbn [startLoop].
  unfold startBody, bind, LookupContainer, State, call.
  rewrite Hlookup. cbn. rewrite Hstate. cbn.
  eexists. repeat split. apply trace_app2.
Qed.

(** Attach with more than one explicit identifier is refused before the
    runtime is created. *)
Lemma start_attach_many_identifiers_refused (c : Context) (s : St W) :
  (1 <? length (Args c))%nat = true ->
  Bool c "attach" = true ->
  startCmd R ErrInvalidArg Quote jsonUnmarshal c s
  = (Val (Some (Errorf "you cannot start and attach multiple containers at once")),
     s).
Proof.
  intros Hlen Hattach. unfold startCmd. rewrite Hlen, Hattach.
  destruct (Args c) as [|x l]; [discriminate|]. reflexivity.
Qed.

(** C6, as the code has it: [checkAllAndLatest] answers from the command
    line alone, so before any runtime call, and returns an error for each
    combination that breaks the rules: identifiers together with --all or
    --latest, --all together with --latest, neither of them and no
    identifier; it returns nil for every other command line.  [start] has
    its own check, which refuses only a command line with no identifier and
    no --latest, and leaves the state untouched when it does. *)
Theorem checkAllAndLatest_rejects (c : Context) :
  ((Bool c "all" = true \/ Bool c "latest" = true) -> Args c <> [] ->
   checkAllAndLatest c
   = Some (Errorf "no arguments are needed with --all or --latest"))
  /\ (Bool c "all" = true -> Bool c "latest" = true ->
      exists e, checkAllAndLatest c = Some e)
  /\ (Bool c "all" = false -> Bool c "latest" = false -> Args c = [] ->
      checkAllAndLatest c
      = Some (Errorf "you must provide at least one pod name or id"))
  /\ (checkAllAndLatest c = None <->
      (Args c = [] /\ Bool c "all" <> Bool c "latest")
      \/ (Args c <> [] /\ Bool c "all" = false /\ Bool c "latest" = false))
  /\ (forall s : St W,
        Args c = [] -> Bool c "latest" = false ->
        startCmd R ErrInvalidArg Quote jsonUnmarshal c s
        = (Val (Some (Errorf "you must provide at least one container name or id")),
           s)).
Proof.
  unfold checkAllAndLatest, startCmd.
  destruct (Bool c "all"), (Bool c "latest"), (Args c) as [|x l]; cbn;
    (split; [|split; [|split; [|split]]]);
    try (intros; eexists; reflexivity);
    try solve [intuition congruence].
Qed.

End Properties.

(* ================================================================== *)
(** ** The commands on the scripted runtime *)

Local Open Scope list_scope.

(** [podman start f], where [f] was created with remove-on-exit and fails
    to start. *)
Lemma failed_start_rolls_back_witness :
  exists s' added,
    startBody (toyRuntime []) toyQuote toyUnmarshal (cmdline ["f"] []) false
              false "f" None (initSt tt)
    = (Val (Continue (Some (Wrapf errOCI
                              ("unable to start container " ++ toyQuote "f")%string))),
       s')
    /\ trace s' = added
    /\ filter isRemove added = [EvRemoveContainer ctrF true].
Proof.
  destruct (failed_start_rolls_back (toyRuntime []) toyQuote toyUnmarshal
              (cmdline ["f"] []) false "f" [] None (initSt tt) ctrF
              ContainerStateCreated errOCI "rm" None tt tt tt tt
              eq_refl eq_refl ltac:(discriminate) eq_refl eq_refl)
    as (s' & added & Hrun & Htrace & Hrm & _ & _).
  exists s', added. repeat split; [exact Hrun|exact Htrace|].
  exact (proj1 (Hrm eq_refl eq_refl)).
Defined.

(** [podman start --sig-proxy=true a] is refused; [podman start a] starts
    the container. *)
Lemma sig_proxy_needs_attach_witness :
  startCmd (toyRuntime []) errInvalidArgToy toyQuote toyUnmarshal
           (cmdline ["a"] [("sig-proxy", true)]) (initSt tt)
  = (Val (Some (Wrapf errInvalidArgToy "you cannot use sig-proxy without --attach")),
     initSt tt)
  /\ fst (startCmd (toyRuntime []) errInvalidArgToy toyQuote toyUnmarshal
                   (cmdline ["a"] []) (initSt tt))
     = Val None.
Proof.
  split.
  - destruct (proj1 (sig_proxy_needs_attach (toyRuntime []) errInvalidArgToy
                       toyQuote toyUnmarshal
                       (cmdline ["a"] [("sig-proxy", true)]) (initSt tt) eq_refl)
                    eq_refl eq_refl)
      as (e & Hrun & _ & Hinv).
    destruct (Hinv eq_refl eq_refl) as [He _].
    rewrite Hrun, He. reflexivity.
  - destruct (proj2 (sig_proxy_needs_attach (toyRuntime []) errInvalidArgToy
                       toyQuote toyUnmarshal (cmdline ["a"] []) (initSt tt)
                       eq_refl)
                    eq_refl)
      as (_ & _ & Hrun).
    rewrite (Hrun eq_refl eq_refl). reflexivity.
Defined.

(** [podman start r], where [r] is running. *)
Lemma start_running_is_noop_witness :
  exists s',
    startBody (toyRuntime []) toyQuote toyUnmarshal (cmdline ["r"] []) false
              false "r" None (initSt tt)
    = (Val (Continue None), s')
    /\ stdout s' = ["idr"]
    /\ trace s' = [EvLookupContainer "r"; EvState ctrR].
Proof.
  destruct (start_running_is_noop (toyRuntime []) toyQuote toyUnmarshal
              (cmdline ["r"] []) false "r" [] None (initSt tt) ctrR tt tt
              eq_refl eq_refl)
    as (s' & Hrun & Hout & _ & Htrace & _).
  exists s'. repeat split; assumption.
Defined.

(** [podman stop --latest a], [podman stop --all --latest] and
    [podman stop] are refused. *)
Lemma checkAllAndLatest_rejects_witness :
  checkAllAndLatest (cmdline ["a"] [("latest", true)])
  = Some (Errorf "no arguments are needed with --all or --latest")
  /\ checkAllAndLatest (cmdline [] [])
     = Some (Errorf "you must provide at least one pod name or id")
  /\ startCmd (toyRuntime []) errInvalidArgToy toyQuote toyUnmarshal
              (cmdline [] []) (initSt tt)
     = (Val (Some (Errorf "you must provide at least one container name or id")),
        initSt tt).
Proof.
  split; [|split].
  - apply (proj1 (checkAllAndLatest_rejects (toyRuntime []) errInvalidArgToy
                    toyQuote toyUnmarshal (cmdline ["a"] [("latest", true)]))).
    + right. reflexivity.
    + discriminate.
  - apply (proj1 (proj2 (proj2 (checkAllAndLatest_rejects (toyRuntime [])
                    errInvalidArgToy toyQuote toyUnmarshal (cmdline [] [])))));
      reflexivity.
  - apply (proj2 (proj2 (proj2 (proj2 (checkAllAndLatest_rejects (toyRuntime [])
                    errInvalidArgToy toyQuote toyUnmarshal (cmdline [] []))))));
      reflexivity.
Defined.

(** A listing of four containers, of which two qualify: one is stopped,
    in a pod; one is exited, in no pod. *)
Lemma prune_selects_and_builds_units_witness :
  fst (GetContainers (toyRuntimeSound [ctrT; ctrP; ctrQ; ctrA])
                     [pruneFilter (toyRuntimeSound [ctrT; ctrP; ctrQ; ctrA])]
                     (initSt tt))
  = Val ([Some ctrT; Some ctrQ], None)
  /\ trace (snd (pruneContainers (toyRuntimeSound [ctrT; ctrP; ctrQ; ctrA])
                                 toyExecute toyPrint 4 false (initSt tt)))
     = [EvGetContainers; EvState ctrT; EvState ctrP; EvState ctrQ; EvState ctrA;
        EvParallelExecute 4 ["idt"; "idq"];
        EvRemoveContainer ctrT false; EvRemoveContainer ctrQ false].
Proof.
  pose proof (prune_selects_and_builds_units
                (toyRuntimeSound [ctrT; ctrP; ctrQ; ctrA]) toyExecute toyPrint
                4%Z false (initSt tt) [ctrT; ctrP; ctrQ; ctrA] tt eq_refl)
    as H.
  cbv zeta in H.
  destruct H as (_ & _ & Hget & _ & _ & _ & _ & Hrun).
  { repeat constructor; discriminate. }
  split.
  - rewrite Hget. reflexivity.
  - rewrite Hrun; [reflexivity|discriminate].
Defined.

(** A listing in which nothing qualifies. *)
Lemma prune_nothing_qualifies_witness :
  exists s',
    pruneContainers (toyRuntime [ctrE; ctrP; ctrA]) toyExecute toyPrint 4 true
                    (initSt tt)
    = (Val None, s')
    /\ trace s' = [EvGetContainers; EvState ctrE; EvState ctrP; EvState ctrA]
    /\ stdout s' = [].
Proof.
  destruct (prune_nothing_qualifies (toyRuntime [ctrE; ctrP; ctrA]) toyExecute
              toyPrint 4%Z true (initSt tt) [ctrE; ctrP; ctrA] tt
              eq_refl eq_refl)
    as (s' & Hrun & Htrace & _ & _ & Hout & _).
  exists s'. repeat split; assumption.
Defined.

(** A container reported as stopped together with an error qualifies; one
    reported as exited together with an error does not. *)
Lemma pruneFilter_error_asymmetry_witness :
  ctrState (toyRuntime []) ctrS tt = ((ContainerStateStopped, Some errStateDB), tt)
  /\ fst (pruneFilter (toyRuntime []) ctrS (initSt tt)) = Val true
  /\ ctrState (toyRuntime []) ctrE tt = ((ContainerStateExited, Some errStateDB), tt)
  /\ fst (pruneFilter (toyRuntime []) ctrE (initSt tt)) <> Val true.
Proof.
  split; [reflexivity|]. split.
  - apply (proj1 (pruneFilter_error_asymmetry (toyRuntime []) ctrS (initSt tt)
                    ContainerStateStopped (Some errStateDB) tt eq_refl)).
    reflexivity.
  - split; [reflexivity|]. intros H.
    apply (proj2 (pruneFilter_error_asymmetry (toyRuntime []) ctrE (initSt tt)
                    ContainerStateExited (Some errStateDB) tt eq_refl) eq_refl) in H.
    destruct H as [H _]. discriminate H.
Defined.

(** C5: [podman start --attach --latest a] resolves two targets, the
    container [a] and the latest container; the command is not refused: it
    creates the runtime, attaches to and starts [a], and returns nil without
    looking at the second target. *)
Theorem start_attach_with_latest_not_refused :
  Bool (cmdline ["a"] [("attach", true); ("latest", true)]) "attach" = true
  /\ length (Args (cmdline ["a"] [("attach", true); ("latest", true)])
             ++ [ID ctrC]) = 2
  /\ fst (startCmd (toyRuntime []) errInvalidArgToy toyQuote toyUnmarshal
                   (cmdline ["a"] [("attach", true); ("latest", true)])
                   (initSt tt))
     = Val None
  /\ trace (snd (startCmd (toyRuntime []) errInvalidArgToy toyQuote toyUnmarshal
                          (cmdline ["a"] [("attach", true); ("latest", true)])
                          (initSt tt)))
     = [EvGetRuntime; EvGetLatestContainer; EvLookupContainer "a";
        EvState ctrA; EvStartAttach ctrA false "" true true; EvWait ctrA;
        EvCleanup ctrA; EvShutdown false]
  /\ count isAttach
       (trace (snd (startCmd (toyRuntime []) errInvalidArgToy toyQuote
                             toyUnmarshal
                             (cmdline ["a"] [("attach", true); ("latest", true)])
                             (initSt tt))))
     = 1.
Proof. repeat split. Qed.

(** Counterexample to C6 as stated, [podman start --latest a]: identifiers
    together with --latest are not refused by [start], which calls the
    runtime for the latest container and for each target, starts both and
    returns nil. *)
Lemma start_accepts_identifier_with_latest :
  Args (cmdline ["a"] [("latest", true)]) <> []
  /\ Bool (cmdline ["a"] [("latest", true)]) "latest" = true
  /\ checkAllAndLatest (cmdline ["a"] [("latest", true)]) <> None
  /\ fst (startCmd (toyRuntime []) errInvalidArgToy toyQuote toyUnmarshal
                   (cmdline ["a"] [("latest", true)]) (initSt tt))
     = Val None
  /\ trace (snd (startCmd (toyRuntime []) errInvalidArgToy toyQuote toyUnmarshal
                          (cmdline ["a"] [("latest", true)]) (initSt tt)))
     = [EvGetRuntime; EvGetLatestContainer;
        EvLookupContainer "a"; EvState ctrA; EvStart ctrA;
        EvLookupContainer "idc"; EvState ctrC; EvStart ctrC;
        EvShutdown false]
  /\ count isSelectionCall
       (trace (snd (startCmd (toyRuntime []) errInvalidArgToy toyQuote
                             toyUnmarshal (cmdline ["a"] [("latest", true)])
                             (initSt tt))))
     = 3
  /\ stdout (snd (startCmd (toyRuntime []) errInvalidArgToy toyQuote toyUnmarshal
                           (cmdline ["a"] [("latest", true)]) (initSt tt)))
     = ["a"; "idc"].
Proof. repeat split; discriminate. Qed.

(** C8: [podman start x a], where the state query of [x] fails, returns the
    error of the query at once: the target [a] is never looked up, nothing
    is started and nothing is printed, although [podman start a] starts [a]
    and prints it, and although a target that does not resolve, as in
    [podman start b a], lets the loop go on to [a]. *)
Theorem start_state_failure_aborts_remaining :
  startCmd (toyRuntime []) errInvalidArgToy toyQuote toyUnmarshal
           (cmdline ["x"; "a"] []) (initSt tt)
  = (Val (Some (Wrapf errStateDB "unable to get container state")),
     {| world := tt;
        trace := [EvGetRuntime; EvLookupContainer "x"; EvState ctrX;
                  EvShutdown false];
        stdout := []; stderr := []; logrus := []; exitCode := 0 |})
  /\ startCmd (toyRuntime []) errInvalidArgToy toyQuote toyUnmarshal
              (cmdline ["a"] []) (initSt tt)
     = (Val None,
        {| world := tt;
           trace := [EvGetRuntime; EvLookupContainer "a"; EvState ctrA;
                     EvStart ctrA; EvShutdown false];
           stdout := ["a"]; stderr := []; logrus := []; exitCode := 0 |})
  /\ startCmd (toyRuntime []) errInvalidArgToy toyQuote toyUnmarshal
              (cmdline ["b"; "a"] []) (initSt tt)
     = (Val (Some (Wrapf errNoSuchContainer "unable to find container b")),
        {| world := tt;
           trace := [EvGetRuntime; EvLookupContainer "b"; EvLookupContainer "a";
                     EvState ctrA; EvStart ctrA; EvShutdown false];
           stdout := ["a"]; stderr := []; logrus := []; exitCode := 0 |}).
Proof. repeat split. Qed.

(* ================================================================== *)
(** ** Identifiers, registry names and flag values *)

Lemma substring_0_length (n : nat) :
  forall s, String.length (substring 0 n s) = Nat.min n (String.length s).
Proof.
  induction n as [|n IH]; intros [|ch s]; cbn; try reflexivity.
  now rewrite IH.
Qed.

Lemma substring_0_all (s : string) : substring 0 (String.length s) s = s.
Proof. induction s as [|ch s IH]; cbn; [reflexivity|now rewrite IH]. Qed.

Lemma substring_0_prefix (n : nat) :
  forall s, exists rest, s = (substring 0 n s ++ rest)%string.
Proof.
  induction n as [|n IH]; intros [|ch s]; cbn.
  - now exists "".
  - now exists (String ch s).
  - now exists "".
  - destruct (IH s) as [rest Hrest]. exists rest. now rewrite <- Hrest.
Qed.

Lemma shortID_length_min (id : string) :
  String.length (shortID id) = Nat.min (String.length id) idTruncLength.
Proof.
  unfold shortID. destruct (idTruncLength <? String.length id)%nat eqn:Hlt.
  - rewrite substring_0_length. apply Nat.min_comm.
  - apply Nat.ltb_ge in Hlt. now rewrite Nat.min_l.
Qed.

(** X1: a short identifier has the length of the identifier, capped at
    twelve bytes. *)
Theorem shortID_length (id : string) :
  String.length (shortID id) = Nat.min (String.length id) idTruncLength
  /\ String.length (shortID id) <= 12.
Proof.
  rewrite shortID_length_min. split; [reflexivity|].
  unfold idTruncLength. lia.
Qed.

(** X2: a short identifier is a prefix of the identifier: the identifier is
    the short one followed by what was cut. *)
Theorem shortID_prefix (id : string) :
  exists cut, id = (shortID id ++ cut)%string
              /\ String.length cut = String.length id - idTruncLength.
Proof.
  unfold shortID. destruct (idTruncLength <? String.length id)%nat eqn:Hlt.
  - destruct (substring_0_prefix idTruncLength id) as [cut Hcut].
    exists cut. split; [exact Hcut|].
    apply Nat.ltb_lt in Hlt.
    assert (Hlen : String.length id
                   = String.length (substring 0 idTruncLength id)
                     + String.length cut).
    { rewrite Hcut at 1. clear.
      induction (substring 0 idTruncLength id); cbn; [reflexivity|].
      now rewrite IHs. }
    rewrite substring_0_length in Hlen. lia.
  - exists "". apply Nat.ltb_ge in Hlt. split.
    + clear. induction id as [|ch s IH]; cbn; [reflexivity|now rewrite <- IH].
    + cbn. lia.
Qed.

(** X3: cutting a short identifier again changes nothing. *)
Theorem shortID_idempotent (id : string) : shortID (shortID id) = shortID id.
Proof.
  unfold shortID at 1.
  destruct (idTruncLength <? String.length (shortID id))%nat eqn:Hlt;
    [|reflexivity].
  apply Nat.ltb_lt in Hlt. rewrite shortID_length_min in Hlt. lia.
Qed.

Lemma prefix_split (p : string) :
  forall s, String.prefix p s = true -> exists rest, s = (p ++ rest)%string.
Proof.
  induction p as [|a p IH]; intros [|b s] H; cbn in *.
  - now exists "".
  - now exists (String b s).
  - discriminate.
  - destruct (Ascii.ascii_dec a b) as [->|]; [|discriminate].
    destruct (IH s H) as [rest ->]. now exists rest.
Qed.

Lemma prefix_append (p rest : string) : String.prefix p (p ++ rest) = true.
Proof.
  induction p as [|a p IH]; cbn; [now destruct rest|].
  destruct (Ascii.ascii_dec a a); [exact IH|congruence].
Qed.

Lemma substring_skip (p rest : string) :
  substring (String.length p) (String.length (p ++ rest) - String.length p)
            (p ++ rest) = rest.
Proof.
  induction p as [|a p IH]; cbn.
  - rewrite Nat.sub_0_r. apply substring_0_all.
  - exact IH.
Qed.

Lemma TrimPrefix_append (p rest : string) : TrimPrefix (p ++ rest) p = rest.
Proof. unfold TrimPrefix. now rewrite prefix_append, substring_skip. Qed.

(** X4: [scrubServer] takes off what it finds in front of the name, in this
    order: one 'https://', then one 'http://'.  The name is what it took off
    followed by what it returns, and what it took off is one of four
    prefixes. *)
Theorem scrubServer_removes (server : string) :
  exists scheme,
    server = (scheme ++ scrubServer server)%string
    /\ (scheme = "" \/ scheme = "http://" \/ scheme = "https://"
        \/ scheme = "https://http://")
    /\ (scheme = "" <->
        String.prefix "https://" server = false
        /\ String.prefix "http://" server = false).
Proof.
  unfold scrubServer.
  destruct (String.prefix "https://" server) eqn:Hs.
  - destruct (prefix_split _ _ Hs) as [r1 ->]. rewrite TrimPrefix_append.
    destruct (String.prefix "http://" r1) eqn:Hp.
    + destruct (prefix_split _ _ Hp) as [r2 ->]. rewrite TrimPrefix_append.
      exists "https://http://". repeat split; auto; try discriminate.
      intros [H _]. discriminate.
    + unfold TrimPrefix at 1. rewrite Hp.
      exists "https://". repeat split; auto; try discriminate.
      intros [H _]. discriminate.
  - unfold TrimPrefix at 2. rewrite Hs.
    destruct (String.prefix "http://" server) eqn:Hp.
    + destruct (prefix_split _ _ Hp) as [r2 ->]. rewrite TrimPrefix_append.
      exists "http://". repeat split; auto; try discriminate.
      intros [_ H]. discriminate.
    + unfold TrimPrefix. rewrite Hp. exists "". repeat split; auto.
Qed.

(** X5: a name that starts with 'http://' loses exactly that prefix, so a
    second 'http://' behind it stays; a name that starts with 'https://'
    loses it, and an 'http://' behind it as well. *)
Theorem scrubServer_schemes (rest : string) :
  scrubServer ("http://" ++ rest) = rest
  /\ scrubServer ("https://" ++ rest) = TrimPrefix rest "http://"
  /\ scrubServer ("http://http://" ++ rest) = ("http://" ++ rest)%string
  /\ scrubServer ("https://http://" ++ rest) = rest.
Proof.
  unfold scrubServer. repeat split.
  - change (TrimPrefix ("http://" ++ rest) "https://") with ("http://" ++ rest)%string.
    apply TrimPrefix_append.
  - now rewrite TrimPrefix_append.
  - change (TrimPrefix ("http://http://" ++ rest) "https://")
      with ("http://" ++ ("http://" ++ rest))%string.
    apply TrimPrefix_append.
  - change ("https://http://" ++ rest)%string
      with ("https://" ++ ("http://" ++ rest))%string.
    rewrite TrimPrefix_append. apply TrimPrefix_append.
Qed.

Lemma looksLikeOption_iff (v : string) :
  looksLikeOption v = true <-> optionLike v.
Proof.
  unfold optionLike. split.
  - destruct v as [|a [|ch rest]]; cbn; try discriminate;
      destruct a as [[] [] [] [] [] [] [] []]; try discriminate.
    intros H. exists ch, rest. split; [reflexivity|].
    intros ->. discriminate.
  - intros (ch & rest & -> & Hch). cbn.
    destruct (Ascii.eqb ch "010") eqn:E; [|reflexivity].
    apply Ascii.eqb_eq in E. contradiction.
Qed.

(** X6: [validateFlags] returns nil exactly when no declared string flag
    and no element of a declared string-slice flag holds a value made of a
    dash followed by a character other than a line feed; boolean flags are
    never looked at.  An empty value and a lone dash pass. *)
Theorem validateFlags_nil_iff (c : Context) (flags : list Flag) :
  validateFlags c flags = None <-> Forall (flagHasValue c) flags.
Proof.
  induction flags as [|flag rest IH]; cbn [validateFlags].
  - split; [constructor|reflexivity].
  - destruct flag as [N|N|N|N].
    + rewrite IH. split; [now constructor|now inversion 1].
    + rewrite IH. split; [now constructor|now inversion 1].
    + destruct (looksLikeOption (String_ c (firstName N))) eqn:E.
      * split; [discriminate|]. inversion 1 as [|? ? Hv _]. exfalso.
        apply Hv. now apply looksLikeOption_iff.
      * rewrite IH. split.
        -- intros H. constructor; [|exact H]. cbn.
           rewrite <- looksLikeOption_iff. congruence.
        -- now inversion 1.
    + destruct (existsb looksLikeOption (StringSlice c (firstName N))) eqn:E.
      * split; [discriminate|]. inversion 1 as [|? ? Hv _]. exfalso.
        apply existsb_exists in E. destruct E as (v & Hin & Hv').
        apply (Hv v Hin). now apply looksLikeOption_iff.
      * rewrite IH. split.
        -- intros H. constructor; [|exact H]. cbn. intros v Hin Hopt.
           apply looksLikeOption_iff in Hopt.
           assert (existsb looksLikeOption (StringSlice c (firstName N)) = true)
             by (apply existsb_exists; eauto).
           congruence.
        -- now inversion 1.
Qed.

(** X7: when [validateFlags] returns an error, the error names the first
    declared flag, in the order of the declarations, that holds such a
    value, by the name before the first comma of its declaration. *)
Theorem validateFlags_error_names_first (c : Context) (flags : list Flag)
    (e : error) :
  validateFlags c flags = Some e ->
  exists before flag after Name,
    flags = before ++ flag :: after
    /\ Forall (flagHasValue c) before
    /\ ~ flagHasValue c flag
    /\ (flag = StringFlag Name \/ flag = StringSliceFlag Name)
    /\ e = Errorf ("option --" ++ firstName Name ++ " requires a value").
Proof.
  induction flags as [|flag rest IH]; cbn [validateFlags]; [discriminate|].
  assert (Hskip : flagHasValue c flag -> validateFlags c rest = Some e ->
    exists before flag' after Name,
      flag :: rest = before ++ flag' :: after
      /\ Forall (flagHasValue c) before
      /\ ~ flagHasValue c flag'
      /\ (flag' = StringFlag Name \/ flag' = StringSliceFlag Name)
      /\ e = Errorf ("option --" ++ firstName Name ++ " requires a value")).
  { intros Hok Hrest.
    destruct (IH Hrest) as (before & flag' & after & Name & -> & Hb & Hbad & Hk & He).
    exists (flag :: before), flag', after, Name.
    repeat split; try assumption. now constructor. }
  destruct flag as [N|N|N|N].
  - apply Hskip. exact I.
  - apply Hskip. exact I.
  - destruct (looksLikeOption (String_ c (firstName N))) eqn:E.
    + intros [= <-]. exists [], (StringFlag N), rest, N.
      repeat split; auto. cbn. intros H. apply H. now apply looksLikeOption_iff.
    + apply Hskip. cbn. rewrite <- looksLikeOption_iff. congruence.
  - destruct (existsb looksLikeOption (StringSlice c (firstName N))) eqn:E.
    + intros [= <-]. exists [], (StringSliceFlag N), rest, N.
      repeat split; auto. cbn. intros H.
      apply existsb_exists in E. destruct E as (v & Hin & Hv).
      apply (H v Hin). now apply looksLikeOption_iff.
    + apply Hskip. cbn. intros v Hin Hopt. apply looksLikeOption_iff in Hopt.
      assert (existsb looksLikeOption (StringSlice c (firstName N)) = true)
        by (apply existsb_exists; eauto).
      congruence.
Qed.

(* ================================================================== *)
(** ** Selection, for any runtime *)

Section Selection.

Context {W : Type} (R : Runtime W).

Lemma string_app_assoc (a b c : string) :
  ((a ++ b) ++ c = a ++ (b ++ c))%string.
Proof. induction a as [|ch a IH]; cbn; [reflexivity|now rewrite IH]. Qed.

Lemma lastOf_cons (e : error) (errs : list error) (pending : option error) :
  lastOf (e :: errs) pending = lastOf errs (Some e).
Proof. reflexivity. Qed.

Lemma resolved_no_nil (answers : list (string * (ptr * option error))) :
  Forall (fun p : ptr => p <> None) (resolved answers).
Proof.
  induction answers as [|[i [[ctr|] err]] rest IH]; cbn.
  - constructor.
  - constructor; [discriminate|exact IH].
  - exact IH.
Qed.

Lemma resolved_length (answers : list (string * (ptr * option error))) :
  length (resolved answers) <= length answers.
Proof.
  induction answers as [|[i [[ctr|] err]] rest IH]; cbn; lia.
Qed.

Lemma lookupAnswers_length (args : list string) :
  forall w, length (lookupAnswers R args w) = length args.
Proof.
  induction args as [|i rest IH]; intros w; cbn; [reflexivity|].
  destruct (rtLookupContainer R i w) as [answer w1]. cbn. now rewrite IH.
Qed.

Lemma lastOf_nil_iff (errs : list error) :
  lastOf errs None = None <-> errs = [].
Proof.
  split; [|now intros ->].
  destruct errs as [|e errs]; [reflexivity|]. rewrite lastOf_cons.
  intros H. exfalso. revert e H.
  induction errs as [|e' errs IH]; intros e H; [discriminate|].
  rewrite lastOf_cons in H. exact (IH e' H).
Qed.

Lemma lookupErrors_nil_iff (answers : list (string * (ptr * option error))) :
  lookupErrors answers = [] <-> Forall (fun a => snd (snd a) = None) answers.
Proof.
  induction answers as [|[i [p [e|]]] rest IH]; cbn.
  - split; [constructor|reflexivity].
  - split; [discriminate|]. inversion 1. discriminate.
  - rewrite IH. split; [now constructor|now inversion 1].
Qed.

(** The loop over the identifiers, in terms of what the runtime answered. *)
Lemma lookupArgs_run (args : list string) :
  forall containers lastError s,
    lookupArgs R args containers lastError s
    = (Val (containers ++ resolved (lookupAnswers R args (world s)),
            lastOf (lookupErrors (lookupAnswers R args (world s))) lastError),
       {| world := afterLookups R args (world s);
          trace := trace s ++ map EvLookupContainer args;
          stdout := stdout s;
          stderr := stderr s
                    ++ map Error
                         (removelast
                            (pendingList lastError
                             ++ lookupErrors (lookupAnswers R args (world s))));
          logrus := logrus s;
          exitCode := exitCode s |}).
Proof.
  induction args as [|i rest IH]; intros containers lastError s.
  - cbn. unfold ret. rewrite !app_nil_r.
    destruct lastError, s; cbn; now rewrite ?app_nil_r.
  - cbn [lookupArgs lookupAnswers afterLookups map].
    unfold bind at 1. unfold LookupContainer, call.
    destruct (rtLookupContainer R i (world s)) as [[p err] w1]. cbn [snd].
    destruct err as [e|].
    + unfold bind at 1.
      assert (Hflush : bind (flushPending lastError)
                (fun _ => ret (Some (Wrapf e ("unable to find container " ++ i)%string)))
                (called s (EvLookupContainer i) w1)
              = (Val (Some (Wrapf e ("unable to find container " ++ i)%string)),
                 {| world := w1;
                    trace := trace s ++ [EvLookupContainer i];
                    stdout := stdout s;
                    stderr := stderr s ++ map Error (pendingList lastError);
                    logrus := logrus s;
                    exitCode := exitCode s |})).
      { destruct lastError; cbn; [reflexivity|]. now rewrite app_nil_r. }
      rewrite Hflush. clear Hflush. cbv beta iota zeta.
      rewrite IH. cbn [world trace stdout stderr logrus exitCode].
      cbn [lookupErrors]. rewrite lastOf_cons.
      rewrite (removelast_app (pendingList lastError)) by discriminate.
      rewrite map_app, <- !app_assoc. cbn [app pendingList].
      destruct p as [ctr|]; cbn [resolved]; rewrite <- ?app_assoc; reflexivity.
    + unfold bind at 1. cbn [ret]. cbv beta iota zeta.
      rewrite IH. cbn [world trace stdout stderr logrus exitCode called].
      cbn [lookupErrors]. rewrite <- !app_assoc. cbn [app].
      destruct p as [ctr|]; cbn [resolved]; rewrite <- ?app_assoc; reflexivity.
Qed.

Lemma lastOf_last (earlier : list error) (e : error) (pending : option error) :
  lastOf (earlier ++ [e]) pending = Some e.
Proof. unfold lastOf. now rewrite fold_left_app. Qed.

Lemma lookupErrors_In (answers : list (string * (ptr * option error)))
    (i : string) (p : ptr) (err : error) :
  In (i, (p, Some err)) answers ->
  In (Wrapf err ("unable to find container " ++ i)%string) (lookupErrors answers).
Proof.
  induction answers as [|[j [q [e|]]] rest IH]; cbn; [tauto| |].
  - intros [H|H]; [injection H as -> _ ->; now left|right; auto].
  - intros [H|H]; [discriminate|auto].
Qed.

(** C1: an explicit selection, for any identifiers and any runtime.  The
    sequence returned is the handles the lookups answered, in the order of
    the identifiers, and holds no nil; the error returned is the last lookup
    error, wrapped with its identifier, which it mentions; the lookup errors
    before the last have been printed to standard error, in order, and are
    not returned.  For [a; b; c] where [b] alone does not resolve, the
    sequence is the handles of [a] and [c], the error is that of [b] and
    nothing is printed; where [a] and [b] both do not resolve, the error is
    that of [b] and that of [a] has been printed. *)
Theorem explicit_selection_reports_unresolved
    (c : Context) (filterState : option ContainerStatus) (verb : string)
    (s : St W) :
  Bool c "all" = false -> Bool c "latest" = false ->
  let answers := lookupAnswers R (Args c) (world s) in
  getAllOrLatestContainers R c filterState verb s
  = (Val (resolved answers, lastOf (lookupErrors answers) None),
     {| world := afterLookups R (Args c) (world s);
        trace := trace s ++ map EvLookupContainer (Args c);
        stdout := stdout s;
        stderr := stderr s ++ map Error (removelast (lookupErrors answers));
        logrus := logrus s;
        exitCode := exitCode s |})
  /\ Forall (fun p : ptr => p <> None) (resolved answers)
  /\ (forall earlier e,
        lookupErrors answers = earlier ++ [e] ->
        lastOf (lookupErrors answers) None = Some e
        /\ removelast (lookupErrors answers) = earlier)
  /\ (forall i p err,
        In (i, (p, Some err)) answers ->
        In (Wrapf err ("unable to find container " ++ i)%string)
           (lookupErrors answers)
        /\ mentions (Wrapf err ("unable to find container " ++ i)%string) i)
  /\ (forall a b c' ha hc eb w1 w2 w3,
        Args c = [a; b; c'] ->
        rtLookupContainer R a (world s) = ((Some ha, None), w1) ->
        rtLookupContainer R b w1 = ((None, Some eb), w2) ->
        rtLookupContainer R c' w2 = ((Some hc, None), w3) ->
        exists s',
          getAllOrLatestContainers R c filterState verb s
          = (Val ([Some ha; Some hc],
                  Some (Wrapf eb ("unable to find container " ++ b)%string)), s')
          /\ mentions (Wrapf eb ("unable to find container " ++ b)%string) b
          /\ stderr s' = stderr s
          /\ stdout s' = stdout s
          /\ trace s' = trace s ++ [EvLookupContainer a; EvLookupContainer b;
                                    EvLookupContainer c']
          /\ world s' = w3)
  /\ (forall a b c' hc ea eb w1 w2 w3,
        Args c = [a; b; c'] ->
        rtLookupContainer R a (world s) = ((None, Some ea), w1) ->
        rtLookupContainer R b w1 = ((None, Some eb), w2) ->
        rtLookupContainer R c' w2 = ((Some hc, None), w3) ->
        exists s',
          getAllOrLatestContainers R c filterState verb s
          = (Val ([Some hc],
                  Some (Wrapf eb ("unable to find container " ++ b)%string)), s')
          /\ stderr s'
             = stderr s
               ++ [Error (Wrapf ea ("unable to find container " ++ a)%string)]
          /\ stdout s' = stdout s
          /\ trace s' = trace s ++ [EvLookupContainer a; EvLookupContainer b;
                                    EvLookupContainer c']).
Proof.
  intros Hall Hlatest answers.
  split; [|split; [|split; [|split; [|split]]]].
  - unfold getAllOrLatestContainers. rewrite Hall, Hlatest.
    apply (lookupArgs_run (Args c) [] None s).
  - apply resolved_no_nil.
  - intros earlier e ->. split; [apply lastOf_last|apply removelast_last].
  - intros i p err Hin. split;
      [now apply (lookupErrors_In answers i p err)|apply mentions_wrapped_lookup].
  - intros a b c' ha hc eb w1 w2 w3 Hargs Ha Hb Hc.
    unfold getAllOrLatestContainers. rewrite Hall, Hlatest, Hargs.
    cbn [lookupArgs]. unfold bind, LookupContainer, call.
    rewrite Ha. cbn. rewrite Hb. cbn. rewrite Hc. cbn.
    eexists. split; [reflexivity|]. repeat split.
    + apply mentions_wrapped_lookup.
    + apply trace_app3.
  - intros a b c' hc ea eb w1 w2 w3 Hargs Ha Hb Hc.
    unfold getAllOrLatestContainers. rewrite Hall, Hlatest, Hargs.
    cbn [lookupArgs]. unfold bind, LookupContainer, call.
    rewrite Ha. cbn. rewrite Hb. cbn. rewrite Hc. cbn.
    eexists. split; [reflexivity|]. repeat split. apply trace_app3.
Qed.

(** X8: an explicit selection, for any identifiers and any runtime: each
    identifier is looked up once, in order; the sequence returned is the
    handles that are not nil, in order; the error returned is the last
    lookup error, wrapped with its identifier, and the errors before it have
    been printed to standard error, in order, one line each. *)
Theorem explicit_selection_run
    (c : Context) (filterState : option ContainerStatus) (verb : string)
    (s : St W) :
  Bool c "all" = false -> Bool c "latest" = false ->
  getAllOrLatestContainers R c filterState verb s
  = (Val (resolved (lookupAnswers R (Args c) (world s)),
          lastOf (lookupErrors (lookupAnswers R (Args c) (world s))) None),
     {| world := afterLookups R (Args c) (world s);
        trace := trace s ++ map EvLookupContainer (Args c);
        stdout := stdout s;
        stderr := stderr s
                  ++ map Error
                       (removelast
                          (lookupErrors (lookupAnswers R (Args c) (world s))));
        logrus := logrus s;
        exitCode := exitCode s |}).
Proof.
  intros Hall Hlatest. unfold getAllOrLatestContainers.
  rewrite Hall, Hlatest. apply (lookupArgs_run (Args c) [] None s).
Qed.

(** X9: what an explicit selection guarantees to its caller: the sequence
    holds no nil and at most one handle per identifier, and the error is nil
    exactly when every lookup answered without an error. *)
Theorem explicit_selection_invariants
    (c : Context) (filterState : option ContainerStatus) (verb : string)
    (s : St W) :
  Bool c "all" = false -> Bool c "latest" = false ->
  exists containers err s',
    getAllOrLatestContainers R c filterState verb s = (Val (containers, err), s')
    /\ Forall (fun p : ptr => p <> None) containers
    /\ length containers <= length (Args c)
    /\ (err = None <->
        Forall (fun a => snd (snd a) = None)
               (lookupAnswers R (Args c) (world s))).
Proof.
  intros Hall Hlatest. eexists _, _, _. split.
  - unfold getAllOrLatestContainers. rewrite Hall, Hlatest.
    apply (lookupArgs_run (Args c) [] None s).
  - split; [apply resolved_no_nil|]. split.
    + rewrite <- (lookupAnswers_length (Args c) (world s)).
      apply resolved_length.
    + now rewrite lastOf_nil_iff, lookupErrors_nil_iff.
Qed.

Lemma stateFilter_run (wanted : ContainerStatus) (ctr : Container) (s : St W) :
  bind (State R ctr)
       (fun x => let '(state, _) := x in ret (ContainerStatus_eqb state wanted)) s
  = (Val (hasState wanted (ctr, fst (ctrState R ctr (world s)))),
     called s (EvState ctr) (snd (ctrState R ctr (world s)))).
Proof.
  unfold bind, State, call, hasState.
  now destruct (ctrState R ctr (world s)) as [[state err] w1].
Qed.

Lemma keepContainers_hasState (wanted : ContainerStatus) (ctrs : list Container) :
  forall s,
    keepContainers
      [fun ctr => bind (State R ctr)
                    (fun x => let '(state, _) := x in
                              ret (ContainerStatus_eqb state wanted))]
      ctrs s
    = (Val (map fst (filter (hasState wanted) (observations R ctrs (world s)))),
       afterListing R s ctrs).
Proof.
  induction ctrs as [|ctr rest IH]; intros s.
  - cbn. unfold ret, afterListing. destruct s; cbn. now rewrite app_nil_r.
  - cbn [keepContainers allFilters observations]. unfold bind at 1 2.
    rewrite stateFilter_run.
    destruct (ctrState R ctr (world s)) as [answer w1] eqn:Hq. cbn [fst snd].
    assert (Hw : w1 = snd (ctrState R ctr (world s))) by now rewrite Hq.
    destruct (hasState wanted (ctr, answer)) eqn:Hp; cbn [ret];
      unfold bind; rewrite IH; cbn [world called];
      cbn [filter]; rewrite Hp; cbn [map fst]; unfold ret;
      rewrite Hw, afterListing_cons; reflexivity.
Qed.

(** X10: with --all and a state to filter on, the selection lists the
    runtime's containers once, asks each its state once, in order, and
    returns those answered with that state, in the runtime's order, whatever
    error came with the answer; the identifiers and --latest are not looked
    at.  Every container returned was reported in the state asked for. *)
Theorem all_selection_filters_by_state
    (c : Context) (wanted : ContainerStatus) (verb : string) (s : St W)
    (all : list Container) (w1 : W) :
  Bool c "all" = true ->
  rtAllContainers R (world s) = ((all, None), w1) ->
  getAllOrLatestContainers R c (Some wanted) verb s
  = (Val (map Some (map fst (filter (hasState wanted) (observations R all w1))),
          None),
     afterListing R (called s EvGetContainers w1) all)
  /\ Forall (fun o => fst (snd o) = wanted)
            (filter (hasState wanted) (observations R all w1))
  /\ trace (afterListing R (called s EvGetContainers w1) all)
     = trace s ++ EvGetContainers :: map EvState all.
Proof.
  intros Hall Hlist. split; [|split].
  - unfold getAllOrLatestContainers. rewrite Hall.
    unfold bind at 1. unfold GetContainers. unfold bind at 1. unfold call.
    rewrite Hlist. unfold bind at 1.
    rewrite keepContainers_hasState. reflexivity.
  - apply Forall_forall. intros [ctr [state err]] Hin.
    apply filter_In in Hin. destruct Hin as [_ Hs]. unfold hasState in Hs.
    cbn in *. destruct state, wanted; try discriminate; reflexivity.
  - cbn. now rewrite <- app_assoc.
Qed.

(** X11: with --all and no state to filter on, the selection returns every
    container the runtime lists, in order, and asks no container its
    state. *)
Theorem all_selection_without_filter
    (c : Context) (verb : string) (s : St W) (all : list Container) (w1 : W) :
  Bool c "all" = true ->
  rtAllContainers R (world s) = ((all, None), w1) ->
  getAllOrLatestContainers R c None verb s
  = (Val (map Some all, None), called s EvGetContainers w1).
Proof.
  intros Hall Hlist. unfold getAllOrLatestContainers. rewrite Hall.
  unfold bind at 1. unfold GetContainers. unfold bind at 1. unfold call.
  rewrite Hlist. unfold bind at 1.
  assert (Hkeep : forall l s0, keepContainers (W:=W) [] l s0 = (Val l, s0)).
  { induction l as [|x l IH]; intros s0; [reflexivity|].
    cbn [keepContainers allFilters]. unfold bind, ret. now rewrite IH. }
  rewrite Hkeep. reflexivity.
Qed.

(** X12: with --all, when the listing itself fails, the selection returns
    no container and the error of the listing wrapped with the verb of the
    command; no container was asked its state. *)
Theorem all_selection_listing_fails
    (c : Context) (filterState : option ContainerStatus) (verb : string)
    (s : St W) (answered : list Container) (e : error) (w1 : W) :
  Bool c "all" = true ->
  rtAllContainers R (world s) = ((answered, Some e), w1) ->
  getAllOrLatestContainers R c filterState verb s
  = (Val ([], Some (Wrapf e ("unable to get " ++ verb ++ " containers")%string)),
     called s EvGetContainers w1)
  /\ mentions (Wrapf e ("unable to get " ++ verb ++ " containers")%string) verb.
Proof.
  intros Hall Hlist. split.
  - unfold getAllOrLatestContainers. rewrite Hall.
    destruct filterState; unfold bind, GetContainers, bind, call;
      rewrite Hlist; reflexivity.
  - exists "unable to get ", (" containers: " ++ Error e)%string.
    cbn [Error Wrapf]. rewrite !string_app_assoc. reflexivity.
Qed.

(** X13: with --latest and without --all, the selection asks the runtime
    for its latest container and for nothing else: the identifiers on the
    command line are not looked up.  An error is returned wrapped, with no
    container; otherwise the sequence is the one pointer the runtime
    answered, which is not checked for nil. *)
Theorem latest_selection
    (c : Context) (filterState : option ContainerStatus) (verb : string)
    (s : St W) (lastCtr : ptr) (err : option error) (w1 : W) :
  Bool c "all" = false -> Bool c "latest" = true ->
  rtGetLatestContainer R (world s) = ((lastCtr, err), w1) ->
  getAllOrLatestContainers R c filterState verb s
  = (Val (match err with
          | Some e => ([], Some (Wrapf e "unable to get latest container"))
          | None => ([lastCtr], None)
          end),
     called s EvGetLatestContainer w1).
Proof.
  intros Hall Hlatest Hq. unfold getAllOrLatestContainers.
  rewrite Hall, Hlatest. unfold bind, GetLatestContainer, call. rewrite Hq.
  now destruct err.
Qed.

End Selection.

(** [podman start a b c], where [b] is not a container; and
    [podman start b nope a], where neither [b] nor [nope] is. *)
Lemma explicit_selection_reports_unresolved_witness :
  (exists s',
     getAllOrLatestContainers (toyRuntime []) (cmdline ["a"; "b"; "c"] [])
                              None "start" (initSt tt)
     = (Val ([Some ctrA; Some ctrC],
             Some (Wrapf errNoSuchContainer "unable to find container b")), s')
     /\ stderr s' = []
     /\ trace s' = [EvLookupContainer "a"; EvLookupContainer "b";
                    EvLookupContainer "c"])
  /\ (exists s',
        getAllOrLatestContainers (toyRuntime []) (cmdline ["b"; "nope"; "a"] [])
                                 None "start" (initSt tt)
        = (Val ([Some ctrA],
                Some (Wrapf errNoSuchContainer "unable to find container nope")),
           s')
        /\ stderr s' = ["unable to find container b: no such container"]).
Proof.
  split.
  - destruct (explicit_selection_reports_unresolved (toyRuntime [])
                (cmdline ["a"; "b"; "c"] []) None "start" (initSt tt)
                eq_refl eq_refl)
      as (_ & _ & _ & _ & Hone & _).
    destruct (Hone "a" "b" "c" ctrA ctrC errNoSuchContainer tt tt tt
                   eq_refl eq_refl eq_refl eq_refl)
      as (s' & Hrun & _ & Hstderr & _ & Htrace & _).
    exists s'. repeat split; assumption.
  - destruct (explicit_selection_reports_unresolved (toyRuntime [])
                (cmdline ["b"; "nope"; "a"] []) None "start" (initSt tt)
                eq_refl eq_refl)
      as (_ & _ & _ & _ & _ & Htwo).
    destruct (Htwo "b" "nope" "a" ctrA errNoSuchContainer errNoSuchContainer
                   tt tt tt eq_refl eq_refl eq_refl eq_refl)
      as (s' & Hrun & Hstderr & _).
    exists s'. split; assumption.
Defined.

(* ================================================================== *)
(** ** The loop of [start], for any runtime *)

Section StartLoop.

Context {W : Type} (R : Runtime W).
Variable ErrInvalidArg : error.
Variable Quote : string -> string.
Variable jsonUnmarshal : string -> CreateConfig -> CreateConfig * option error.

(** One answer of the runtime is taken apart. *)
Ltac answer :=
  match goal with
  | |- context [rtLookupContainer R ?a ?w] =>
      destruct (rtLookupContainer R a w) as [[[?|] [?|]] ?]
  | |- context [ctrState R ?a ?w] =>
      destruct (ctrState R a w) as [[[] [?|]] ?]
  | |- context [ctrStart R ?a ?w] =>
      destruct (ctrStart R a w) as [[?|] ?]
  | |- context [rtStartAttachCtr R ?a ?b ?c ?d ?e ?w] =>
      destruct (rtStartAttachCtr R a b c d e w) as [[?|] ?]
  | |- context [ctrWait R ?a ?w] =>
      destruct (ctrWait R a w) as [[? [?|]] ?]
  | |- context [ctrCleanup R ?a ?w] =>
      destruct (ctrCleanup R a w) as [[?|] ?]
  | |- context [ctrGetArtifact R ?a ?n ?w] =>
      destruct (ctrGetArtifact R a n w) as [[? [?|]] ?]
  | |- context [rtRemoveContainer R ?a ?f ?w] =>
      destruct (rtRemoveContainer R a f w) as [[?|] ?]
  | |- context [jsonUnmarshal ?a ?z] =>
      destruct (jsonUnmarshal a z) as [[[]] [?|]]
  end; cbn.

Ltac run_body :=
  unfold startBody, removeIfRm, bind, LookupContainer, State, Start,
    startAttachCtr, Wait, Cleanup, GetArtifact, RemoveContainer, call;
  cbn; repeat answer.

(** The calls of one iteration. *)
Lemma startBody_calls (c : Context) (attach sigProxy : bool)
    (container : string) (lastError : option error) (s : St W) :
  exists added out,
    trace (snd (startBody R Quote jsonUnmarshal c attach sigProxy container
                          lastError s)) = trace s ++ added
    /\ stdout (snd (startBody R Quote jsonUnmarshal c attach sigProxy container
                              lastError s)) = stdout s ++ out
    /\ forallb (startLoopEvent attach) added = true
    /\ count isRemove added <= count isStart added
    /\ count isStart added <= 1
    /\ count isLookup added = 1
    /\ count isAttach added <= 1
    /\ length out <= 1
    /\ (forall pending,
          fst (startBody R Quote jsonUnmarshal c attach sigProxy container
                         lastError s) = Val (Continue pending) ->
          count isAttach added = 0).
Proof.
  destruct attach, lastError; run_body;
    eexists _, _;
    (split; [rewrite <- ?app_assoc; cbn [app]; reflexivity|]);
    (split; [first [reflexivity | symmetry; apply app_nil_r]|]);
    cbn; repeat split; try lia; try discriminate; try reflexivity.
Qed.

(** The calls of one iteration begin with the lookup of its target. *)
Lemma startBody_target_calls (c : Context) (attach sigProxy : bool)
    (container : string) (lastError : option error) (s : St W) :
  exists rest out,
    trace (snd (startBody R Quote jsonUnmarshal c attach sigProxy container
                          lastError s))
    = trace s ++ EvLookupContainer container :: rest
    /\ stdout (snd (startBody R Quote jsonUnmarshal c attach sigProxy container
                              lastError s)) = stdout s ++ out
    /\ forallb (startLoopEvent attach) rest = true
    /\ count isLookup rest = 0
    /\ count isStart rest <= 1
    /\ count isRemove rest <= count isStart rest
    /\ count isAttach rest <= 1
    /\ length out <= 1
    /\ (forall pending,
          fst (startBody R Quote jsonUnmarshal c attach sigProxy container
                         lastError s) = Val (Continue pending) ->
          count isAttach rest = 0).
Proof.
  destruct attach, lastError; run_body;
    eexists _, _;
    (split; [rewrite <- ?app_assoc; cbn [app]; reflexivity|]);
    (split; [first [reflexivity | symmetry; apply app_nil_r]|]);
    cbn; repeat split; try lia; try discriminate; try reflexivity.
Qed.

(** The loop only adds calls, and only those of its mode. *)
Lemma startLoop_calls_of (c : Context) (attach sigProxy : bool)
    (args : list string) :
  forall (lastError : option error) (s : St W),
  exists added,
    trace (snd (startLoop R Quote jsonUnmarshal c attach sigProxy args
                          lastError s)) = trace s ++ added
    /\ forallb (startLoopEvent attach) added = true.
Proof.
  induction args as [|container rest IH]; intros lastError s.
  - exists []. cbn. now rewrite app_nil_r.
  - destruct (startBody_calls c attach sigProxy container lastError s)
      as (a1 & o1 & Ht1 & _ & Hev1 & _).
    cbn [startLoop]. unfold bind.
    destruct (startBody R Quote jsonUnmarshal c attach sigProxy container
                        lastError s) as [[[pending|err]|] s1];
      cbn [fst snd] in *.
    + destruct (IH pending s1) as (a2 & Ht2 & Hev2).
      exists (a1 ++ a2). rewrite Ht2, Ht1, <- app_assoc, forallb_app, Hev1, Hev2.
      split; reflexivity.
    + now exists a1.
    + now exists a1.
Qed.

(** X14: the calls of the loop of [start], target by target, for any
    targets and any runtime.  The targets the loop gets to are the first
    ones of the command line, in order; each of them leaves one run of calls
    that begins with the lookup of that very target and holds no other
    lookup, at most one start and no more removals than starts, all of them
    calls of the mode: without attach only state queries, starts, artifact
    reads and forced removals, with attach only state queries, attach
    sessions, waits and cleanups, so that a start that fails under attach is
    never rolled back.  At most one line is printed for each of these
    targets, and at most one attach session is opened in all. *)
Theorem startLoop_calls (c : Context) (attach sigProxy : bool)
    (args : list string) :
  forall (lastError : option error) (s : St W),
  exists (segs : list (list Event)) (outs : list (list string)),
    trace (snd (startLoop R Quote jsonUnmarshal c attach sigProxy args
                          lastError s)) = trace s ++ concat segs
    /\ stdout (snd (startLoop R Quote jsonUnmarshal c attach sigProxy args
                              lastError s)) = stdout s ++ concat outs
    /\ length segs <= length args
    /\ Forall2 (targetCalls attach) (firstn (length segs) args) segs
    /\ Forall2 (fun (seg : list Event) (out : list string) => length out <= 1)
               segs outs
    /\ count isAttach (concat segs) <= 1.
Proof.
  induction args as [|container rest IH]; intros lastError s.
  - exists [], []. cbn. rewrite !app_nil_r. repeat split; try lia; constructor.
  - destruct (startBody_target_calls c attach sigProxy container lastError s)
      as (r1 & o1 & Ht1 & Ho1 & Hev1 & Hlk1 & Hst1 & Hrm1 & Hat1 & Hlen1 & Hcont).
    assert (Htarget : targetCalls attach container
                        (EvLookupContainer container :: r1)).
    { exists r1. repeat split; assumption. }
    assert (Hattach : count isAttach (EvLookupContainer container :: r1)
                      = count isAttach r1) by reflexivity.
    cbn [startLoop]. unfold bind.
    destruct (startBody R Quote jsonUnmarshal c attach sigProxy container
                        lastError s) as [[[pending|err]|] s1];
      cbn [fst snd] in *.
    + destruct (IH pending s1) as (segs & outs & Ht2 & Ho2 & Hlen & Hsegs & Houts & Hat2).
      exists ((EvLookupContainer container :: r1) :: segs), (o1 :: outs).
      rewrite Ht2, Ho2, Ht1, Ho1. cbn [concat length firstn].
      rewrite <- !app_assoc. repeat split.
      * lia.
      * now constructor.
      * now constructor.
      * rewrite count_app, Hattach, (Hcont pending eq_refl). exact Hat2.
    + exists [EvLookupContainer container :: r1], [o1].
      cbn [concat length firstn]. rewrite !app_nil_r. repeat split;
        try assumption; try lia; try (constructor; [assumption|constructor]).
    + exists [EvLookupContainer container :: r1], [o1].
      cbn [concat length firstn]. rewrite !app_nil_r. repeat split;
        try assumption; try lia; try (constructor; [assumption|constructor]).
Qed.



Lemma startLoopEvent_targets (attach : bool) (l : list Event) :
  forallb (startLoopEvent attach) l = true ->
  forallb (startTargetsEvent attach) l = true.
Proof.
  induction l as [|e l IH]; [reflexivity|]. cbn [forallb].
  intros H. apply andb_prop in H. destruct H as [He Hl].
  rewrite (IH Hl), andb_true_r. now destruct e.
Qed.

Lemma startTargetsEvent_counts (attach : bool) (l : list Event) :
  forallb (startTargetsEvent attach) l = true ->
  count isShutdown l = 0 /\ count isGetRuntime l = 0.
Proof.
  induction l as [|e l IH]; [split; reflexivity|]. cbn [forallb].
  intros H. apply andb_prop in H. destruct H as [He Hl].
  destruct (IH Hl) as [H1 H2]. unfold count in *.
  destruct e; cbn in *; try discriminate; auto.
Qed.

(** X16: once [start] has created the runtime, it shuts it down exactly
    once, without force, as its last call, on every path: when the latest
    container cannot be had, when a target ends the loop early, when a nil
    handle is dereferenced.  The runtime is created once, first, and the
    calls in between are those of the selection and of the loop. *)
Theorem startTargets_shuts_down (c : Context) (attach sigProxy : bool)
    (s : St W) (w1 : W) :
  rtGetRuntime R c (world s) = (None, w1) ->
  exists mid,
    trace (snd (startTargets R Quote jsonUnmarshal c attach sigProxy s))
    = trace s ++ EvGetRuntime :: mid ++ [EvShutdown false]
    /\ forallb (startTargetsEvent attach) mid = true
    /\ count isShutdown (EvGetRuntime :: mid ++ [EvShutdown false]) = 1
    /\ count isGetRuntime (EvGetRuntime :: mid ++ [EvShutdown false]) = 1.
Proof.
  intros Hrt.
  assert (Hshape : exists mid,
    trace (snd (startTargets R Quote jsonUnmarshal c attach sigProxy s))
    = trace s ++ EvGetRuntime :: mid ++ [EvShutdown false]
    /\ forallb (startTargetsEvent attach) mid = true).
  { unfold startTargets, bind at 1. unfold GetRuntime, call at 1. rewrite Hrt.
    unfold defer.
    set (s1 := called s EvGetRuntime w1).
    destruct (Bool c "latest").
    - unfold bind, GetLatestContainer, call.
      destruct (rtGetLatestContainer R (world s1)) as [[[latest|] [e|]] w2];
        try (exists [EvGetLatestContainer]; split; [|reflexivity];
             unfold Shutdown, call; cbn;
             destruct (rtShutdown R false w2); cbn;
             rewrite <- !app_assoc; reflexivity).
      destruct (startLoop_calls_of c attach sigProxy (Args c ++ [ID latest]) None
                  (called s1 EvGetLatestContainer w2))
        as (added & Ht & Hev).
      destruct (startLoop R Quote jsonUnmarshal c attach sigProxy
                          (Args c ++ [ID latest]) None
                          (called s1 EvGetLatestContainer w2)) as [r s2].
      cbn [snd] in *. exists (EvGetLatestContainer :: added). split.
      + unfold Shutdown, call. destruct (rtShutdown R false (world s2)).
        cbn. rewrite Ht. cbn. rewrite <- !app_assoc. reflexivity.
      + cbn. now apply startLoopEvent_targets.
    - destruct (startLoop_calls_of c attach sigProxy (Args c) None s1)
        as (added & Ht & Hev).
      destruct (startLoop R Quote jsonUnmarshal c attach sigProxy (Args c)
                          None s1) as [r s2].
      cbn [snd] in *. exists added. split.
      + unfold Shutdown, call. destruct (rtShutdown R false (world s2)).
        cbn. rewrite Ht. cbn. rewrite <- !app_assoc. reflexivity.
      + now apply startLoopEvent_targets. }
  destruct Hshape as (mid & Ht & Hev). exists mid.
  destruct (startTargetsEvent_counts attach mid Hev) as [H1 H2].
  repeat split; try assumption.
  - change (EvGetRuntime :: mid ++ [EvShutdown false])
      with ([EvGetRuntime] ++ mid ++ [EvShutdown false]).
    rewrite !count_app, H1. reflexivity.
  - change (EvGetRuntime :: mid ++ [EvShutdown false])
      with ([EvGetRuntime] ++ mid ++ [EvShutdown false]).
    rewrite !count_app, H2. reflexivity.
Qed.

(** X17: when the runtime cannot be created, [start] returns that error
    wrapped and makes no other call: nothing is looked up and, no runtime
    being there, none is shut down. *)
Theorem startTargets_runtime_fails (c : Context) (attach sigProxy : bool)
    (s : St W) (e : error) (w1 : W) :
  rtGetRuntime R c (world s) = (Some e, w1) ->
  startTargets R Quote jsonUnmarshal c attach sigProxy s
  = (Val (Some (Wrapf e "error creating libpod runtime")),
     called s EvGetRuntime w1).
Proof.
  intros Hrt. unfold startTargets, bind, GetRuntime, call. now rewrite Hrt.
Qed.

(** X18: with --latest, when the latest container cannot be had, [start]
    returns that error wrapped; the identifiers on the command line are not
    looked up, and the runtime is shut down. *)
Theorem startTargets_latest_fails (c : Context) (attach sigProxy : bool)
    (s : St W) (p : ptr) (e : error) (r : option error) (w1 w2 w3 : W) :
  Bool c "latest" = true ->
  rtGetRuntime R c (world s) = (None, w1) ->
  rtGetLatestContainer R w1 = ((p, Some e), w2) ->
  rtShutdown R false w2 = (r, w3) ->
  exists s',
    startTargets R Quote jsonUnmarshal c attach sigProxy s
    = (Val (Some (Wrapf e "unable to get latest container")), s')
    /\ trace s' = trace s ++ [EvGetRuntime; EvGetLatestContainer; EvShutdown false]
    /\ stdout s' = stdout s
    /\ world s' = w3.
Proof.
  intros Hlatest Hrt Hq Hsd.
  unfold startTargets, bind, GetRuntime, call. rewrite Hrt, Hlatest.
  unfold defer, bind, GetLatestContainer, Shutdown, call. cbn.
  rewrite Hq. cbn. rewrite Hsd. cbn.
  eexists. split; [reflexivity|]. cbn. repeat split.
  now rewrite <- !app_assoc.
Qed.

(** X19: attach to a target that is already running: the attach session is
    opened without a start, with standard input wired exactly when
    --interactive is given; what the session returns is what the command
    returns.  There is no wait, no cleanup and no output, the exit code is
    left alone, the remaining targets are not looked at, and an error that
    was pending is neither printed nor returned. *)
Theorem start_attach_running
    (c : Context) (sigProxy : bool) (container : string) (rest : list string)
    (lastError : option error) (s : St W) (ctr : Container)
    (r : option error) (w1 w2 w3 : W) :
  rtLookupContainer R container (world s) = ((Some ctr, None), w1) ->
  ctrState R ctr w1 = ((ContainerStateRunning, None), w2) ->
  rtStartAttachCtr R ctr (Bool c "interactive") (String_ c "detach-keys")
                   sigProxy false w2 = (r, w3) ->
  exists s',
    startLoop R Quote jsonUnmarshal c true sigProxy (container :: rest)
              lastError s = (Val r, s')
    /\ trace s' = trace s
                  ++ [EvLookupContainer container; EvState ctr;
                      EvStartAttach ctr (Bool c "interactive")
                                    (String_ c "detach-keys") sigProxy false]
    /\ stdout s' = stdout s
    /\ stderr s' = stderr s
    /\ exitCode s' = exitCode s
    /\ world s' = w3.
Proof.
  intros Hl Hs Ha. cbn [startLoop].
  unfold startBody, bind, LookupContainer, State, startAttachCtr, call.
  rewrite Hl. cbn. rewrite Hs. cbn. rewrite Ha. cbn.
  eexists. split; [reflexivity|]. cbn. repeat split.
  now rewrite <- !app_assoc.
Qed.

(** X20: attach to a target that is not running, when the session with its
    start succeeds: the command waits for the container, sets the exit code
    of the command to the one the wait returns (and leaves it alone, with a
    line in the log, when the wait fails), then cleans up and returns what
    the cleanup returns. *)
Theorem start_attach_waits
    (c : Context) (sigProxy : bool) (container : string) (rest : list string)
    (lastError : option error) (s : St W) (ctr : Container)
    (state : ContainerStatus) (ecode : Z) (waitErr r : option error)
    (w1 w2 w3 w4 w5 : W) :
  rtLookupContainer R container (world s) = ((Some ctr, None), w1) ->
  ctrState R ctr w1 = ((state, None), w2) ->
  state <> ContainerStateRunning ->
  rtStartAttachCtr R ctr (Bool c "interactive") (String_ c "detach-keys")
                   sigProxy true w2 = (None, w3) ->
  ctrWait R ctr w3 = ((ecode, waitErr), w4) ->
  ctrCleanup R ctr w4 = (r, w5) ->
  exists s',
    startLoop R Quote jsonUnmarshal c true sigProxy (container :: rest)
              lastError s = (Val r, s')
    /\ trace s' = trace s
                  ++ [EvLookupContainer container; EvState ctr;
                      EvStartAttach ctr (Bool c "interactive")
                                    (String_ c "detach-keys") sigProxy true;
                      EvWait ctr; EvCleanup ctr]
    /\ exitCode s' = match waitErr with
                     | None => ecode
                     | Some _ => exitCode s
                     end
    /\ logrus s' = logrus s
                   ++ match waitErr with
                      | None => []
                      | Some e =>
                          [("unable to get exit code of container " ++ ID ctr
                            ++ ": " ++ Quote (Error e))%string]
                      end
    /\ stdout s' = stdout s
    /\ world s' = w5.
Proof.
  intros Hl Hs Hnr Ha Hw Hc. cbn [startLoop].
  unfold startBody, bind, LookupContainer, State, startAttachCtr, Wait,
    Cleanup, call.
  rewrite Hl. cbn. rewrite Hs. cbn. rewrite (not_running state Hnr). cbn.
  rewrite Ha. cbn. rewrite Hw. cbn.
  destruct waitErr; cbn; rewrite Hc; cbn;
    (eexists; split; [reflexivity|]); cbn; repeat split;
    rewrite <- ?app_assoc, ?app_nil_r; reflexivity.
Qed.

(** X21: attach to a target that is not running, when the session with its
    start fails: the error is returned wrapped with the identifier of the
    container; there is no wait and no cleanup, the exit code is left
    alone, and the container is not removed whatever its creation policy. *)
Theorem start_attach_fails
    (c : Context) (sigProxy : bool) (container : string) (rest : list string)
    (lastError : option error) (s : St W) (ctr : Container)
    (state : ContainerStatus) (e : error) (w1 w2 w3 : W) :
  rtLookupContainer R container (world s) = ((Some ctr, None), w1) ->
  ctrState R ctr w1 = ((state, None), w2) ->
  state <> ContainerStateRunning ->
  rtStartAttachCtr R ctr (Bool c "interactive") (String_ c "detach-keys")
                   sigProxy true w2 = (Some e, w3) ->
  exists s',
    startLoop R Quote jsonUnmarshal c true sigProxy (container :: rest)
              lastError s
    = (Val (Some (Wrapf e ("unable to start container " ++ ID ctr)%string)), s')
    /\ trace s' = trace s
                  ++ [EvLookupContainer container; EvState ctr;
                      EvStartAttach ctr (Bool c "interactive")
                                    (String_ c "detach-keys") sigProxy true]
    /\ exitCode s' = exitCode s
    /\ world s' = w3.
Proof.
  intros Hl Hs Hnr Ha. cbn [startLoop].
  unfold startBody, bind, LookupContainer, State, startAttachCtr, call.
  rewrite Hl. cbn. rewrite Hs. cbn. rewrite (not_running state Hnr). cbn.
  rewrite Ha. cbn.
  eexists. split; [reflexivity|]. cbn. repeat split.
  now rewrite <- !app_assoc.
Qed.

(** X22: without attach, a target that is not running and starts is echoed
    by the name it was given on the command line, not by the identifier of
    the container; the pending error is left as it was and the loop goes on,
    without waiting for the container. *)
Theorem start_detached_succeeds
    (c : Context) (sigProxy : bool) (container : string) (rest : list string)
    (lastError : option error) (s : St W) (ctr : Container)
    (state : ContainerStatus) (w1 w2 w3 : W) :
  rtLookupContainer R container (world s) = ((Some ctr, None), w1) ->
  ctrState R ctr w1 = ((state, None), w2) ->
  state <> ContainerStateRunning ->
  ctrStart R ctr w2 = (None, w3) ->
  exists s',
    startBody R Quote jsonUnmarshal c false sigProxy container lastError s
    = (Val (Continue lastError), s')
    /\ stdout s' = stdout s ++ [container]
    /\ stderr s' = stderr s
    /\ trace s' = trace s
                  ++ [EvLookupContainer container; EvState ctr; EvStart ctr]
    /\ world s' = w3
    /\ startLoop R Quote jsonUnmarshal c false sigProxy (container :: rest)
                 lastError s
       = startLoop R Quote jsonUnmarshal c false sigProxy rest lastError s'.
Proof.
  intros Hl Hs Hnr Hst. cbn [startLoop].
  unfold startBody, bind, LookupContainer, State, Start, call.
  rewrite Hl. cbn. rewrite Hs. cbn. rewrite (not_running state Hnr). cbn.
  rewrite Hst. cbn.
  eexists. split; [reflexivity|]. cbn. repeat split.
  now rewrite <- !app_assoc.
Qed.

End StartLoop.

(* ================================================================== *)
(** ** Prune, for any runtime and any executor *)

Section Prune.

Context {W : Type} (R : Runtime W).
Variable Parallelize : string -> Z.
Variable executeWorkerPool :
  Z -> list (ParallelWorkerInput W) -> M W (list (string * option error) * Z).
Variable printParallelOutput :
  list (string * option error) -> Z -> M W (option error).

(** X23: when the listing fails, prune returns the error of the listing as
    it is; no container is asked its state, the executor is not invoked and
    nothing is removed. *)
Theorem prune_listing_fails (maxWorkers : Z) (force : bool) (s : St W)
    (answered : list Container) (e : error) (w1 : W) :
  rtAllContainers R (world s) = ((answered, Some e), w1) ->
  pruneContainers R executeWorkerPool printParallelOutput maxWorkers force s
  = (Val (Some e), called s EvGetContainers w1).
Proof.
  intros Hlist. unfold pruneContainers, bind, GetContainers, bind, call.
  now rewrite Hlist.
Qed.

(** X24: when the runtime cannot be created, [container prune] returns that
    error wrapped and makes no other call: nothing is listed, nothing is
    removed, no runtime is shut down. *)
Theorem pruneContainersCmd_runtime_fails (c : Context) (s : St W)
    (e : error) (w1 : W) :
  rtGetRuntime R c (world s) = (Some e, w1) ->
  pruneContainersCmd R Parallelize executeWorkerPool printParallelOutput c s
  = (Val (Some (Wrapf e "could not get runtime")), called s EvGetRuntime w1).
Proof.
  intros Hrt. unfold pruneContainersCmd, bind, GetRuntime, call.
  now rewrite Hrt.
Qed.

(** X25: [container prune] with something to prune.  The command declares
    no flag, so the value it reads for "force" is false: every unit removes
    its container without force.  The executor is invoked once the listing
    is done, with the number of workers of the global --max-workers when
    that option is set and the default of the "rm" job otherwise, on one
    unit per selected container; the command returns the report made of the
    executor's results, and the runtime is shut down after it. *)
Theorem pruneContainersCmd_runs_units (c : Context) (s : St W)
    (all : list Container) (w1 w2 : W) :
  declaresNoFlags c ->
  rtGetRuntime R c (world s) = (None, w1) ->
  rtAllContainers R w1 = ((all, None), w2) ->
  filter prunable (observations R all w2) <> [] ->
  let selected := map fst (filter prunable (observations R all w2)) in
  let maxWorkers := if GlobalIsSet c "max-workers"
                    then GlobalInt c "max-workers" else Parallelize "rm" in
  let s1 := afterListing R (called (called s EvGetRuntime w1) EvGetContainers w2)
                         all in
  let units := map (deleteFunc R false) selected in
  let report :=
    bind (executeWorkerPool maxWorkers units)
         (fun r => printParallelOutput (fst r) (snd r))
         (called s1 (EvParallelExecute maxWorkers (map ID selected)) (world s1)) in
  Bool c "force" = false
  /\ map ParallelFunc units = map (fun con => RemoveContainer R con false) selected
  /\ map ContainerID units = map ID selected
  /\ pruneContainersCmd R Parallelize executeWorkerPool printParallelOutput c s
     = (fst report, snd (Shutdown R false (snd report))).
Proof.
  intros Hflags Hrt Hlist Hne selected maxWorkers s1 units report.
  assert (Hforce : Bool c "force" = false).
  { destruct Hflags as (Hb & _ & _). unfold Bool. now rewrite Hb. }
  split; [exact Hforce|]. split; [|split].
  - unfold units. rewrite map_map. reflexivity.
  - unfold units. rewrite map_map. reflexivity.
  - unfold pruneContainersCmd. unfold bind at 1. unfold GetRuntime, call at 1.
    rewrite Hrt, Hforce. unfold defer. fold maxWorkers.
    rewrite (pruneContainers_run R executeWorkerPool printParallelOutput
               maxWorkers false (called s EvGetRuntime w1) s1 selected).
    + fold units. fold report. now destruct report.
    + apply GetContainers_prune. exact Hlist.
    + unfold selected. intros H. apply map_eq_nil in H. contradiction.
Qed.

End Prune.

(* ================================================================== *)
(** ** More runs on the scripted runtimes *)

(** [--memory-swap -1] is taken for a missing value. *)
Lemma validateFlags_error_names_first_witness :
  exists before flag after Name,
    [BoolFlag "rm"; StringFlag "memory, m"; StringFlag "memory-swap"]
    = before ++ flag :: after
    /\ Forall (flagHasValue (cmdlineStrings [] [] [("memory-swap", "-1")])) before
    /\ ~ flagHasValue (cmdlineStrings [] [] [("memory-swap", "-1")]) flag
    /\ (flag = StringFlag Name \/ flag = StringSliceFlag Name)
    /\ Errorf "option --memory-swap requires a value"
       = Errorf ("option --" ++ firstName Name ++ " requires a value").
Proof.
  exact (validateFlags_error_names_first
           (cmdlineStrings [] [] [("memory-swap", "-1")])
           [BoolFlag "rm"; StringFlag "memory, m"; StringFlag "memory-swap"]
           (Errorf "option --memory-swap requires a value") eq_refl).
Defined.

(** A selection of [b], [a] and [nope], of which only [a] is a container. *)
Lemma explicit_selection_run_witness :
  getAllOrLatestContainers (toyRuntime []) (cmdline ["b"; "a"; "nope"] [])
                           None "start" (initSt tt)
  = (Val ([Some ctrA],
          Some (Wrapf errNoSuchContainer "unable to find container nope")),
     {| world := tt;
        trace := [EvLookupContainer "b"; EvLookupContainer "a";
                  EvLookupContainer "nope"];
        stdout := [];
        stderr := ["unable to find container b: no such container"];
        logrus := [];
        exitCode := 0 |}).
Proof.
  exact (explicit_selection_run (toyRuntime []) (cmdline ["b"; "a"; "nope"] [])
           None "start" (initSt tt) eq_refl eq_refl).
Defined.

Lemma explicit_selection_invariants_witness :
  exists containers err s',
    getAllOrLatestContainers (toyRuntime []) (cmdline ["b"; "a"; "nope"] [])
                             None "start" (initSt tt)
    = (Val (containers, err), s')
    /\ Forall (fun p : ptr => p <> None) containers
    /\ length containers <= 3
    /\ (err = None <->
        Forall (fun a => snd (snd a) = None)
               (lookupAnswers (toyRuntime []) ["b"; "a"; "nope"] tt)).
Proof.
  exact (explicit_selection_invariants (toyRuntime [])
           (cmdline ["b"; "a"; "nope"] []) None "start" (initSt tt)
           eq_refl eq_refl).
Defined.

(** [--all] on exited containers: the one whose state came with an error
    is selected as well. *)
Lemma all_selection_filters_by_state_witness :
  fst (getAllOrLatestContainers (toyRuntime [ctrS; ctrE; ctrP; ctrQ; ctrA])
                                (cmdline [] [("all", true)])
                                (Some ContainerStateExited) "remove"
                                (initSt tt))
  = Val ([Some ctrE; Some ctrP; Some ctrQ], None).
Proof.
  destruct (all_selection_filters_by_state
              (toyRuntime [ctrS; ctrE; ctrP; ctrQ; ctrA])
              (cmdline [] [("all", true)]) ContainerStateExited "remove"
              (initSt tt) [ctrS; ctrE; ctrP; ctrQ; ctrA] tt eq_refl eq_refl)
    as [Hrun _].
  rewrite Hrun. reflexivity.
Defined.

Lemma all_selection_without_filter_witness :
  getAllOrLatestContainers (toyRuntime [ctrS; ctrA])
                           (cmdline ["a"] [("all", true)]) None "remove"
                           (initSt tt)
  = (Val ([Some ctrS; Some ctrA], None),
     called (initSt tt) EvGetContainers tt).
Proof.
  exact (all_selection_without_filter (toyRuntime [ctrS; ctrA])
           (cmdline ["a"] [("all", true)]) "remove" (initSt tt) [ctrS; ctrA] tt
           eq_refl eq_refl).
Defined.

Lemma all_selection_listing_fails_witness :
  fst (getAllOrLatestContainers
         (toyRuntimeWith None (None, None) ([], Some errNoContainers))
         (cmdline [] [("all", true)]) (Some ContainerStateRunning) "stop"
         (initSt tt))
  = Val ([], Some (Wrapf errNoContainers "unable to get stop containers")).
Proof.
  destruct (all_selection_listing_fails
              (toyRuntimeWith None (None, None) ([], Some errNoContainers))
              (cmdline [] [("all", true)]) (Some ContainerStateRunning) "stop"
              (initSt tt) [] errNoContainers tt eq_refl eq_refl)
    as [Hrun _].
  rewrite Hrun. reflexivity.
Defined.

(** [--latest a]: [a] is not looked up. *)
Lemma latest_selection_witness :
  getAllOrLatestContainers (toyRuntime []) (cmdline ["a"] [("latest", true)])
                           None "stop" (initSt tt)
  = (Val ([Some ctrC], None), called (initSt tt) EvGetLatestContainer tt).
Proof.
  exact (latest_selection (toyRuntime []) (cmdline ["a"] [("latest", true)])
           None "stop" (initSt tt) (Some ctrC) None tt eq_refl eq_refl eq_refl).
Defined.


Lemma startTargets_shuts_down_witness :
  exists mid,
    trace (snd (startTargets (toyRuntime []) toyQuote toyUnmarshal
                             (cmdline ["x"; "a"] []) false false (initSt tt)))
    = [] ++ EvGetRuntime :: mid ++ [EvShutdown false]
    /\ forallb (startTargetsEvent false) mid = true
    /\ count isShutdown (EvGetRuntime :: mid ++ [EvShutdown false]) = 1
    /\ count isGetRuntime (EvGetRuntime :: mid ++ [EvShutdown false]) = 1.
Proof.
  exact (startTargets_shuts_down (toyRuntime []) toyQuote toyUnmarshal
           (cmdline ["x"; "a"] []) false false (initSt tt) tt eq_refl).
Defined.

Lemma startTargets_runtime_fails_witness :
  startTargets (toyRuntimeWith (Some errNoRuntime) (None, None) ([], None))
               toyQuote toyUnmarshal (cmdline ["a"] []) false false (initSt tt)
  = (Val (Some (Wrapf errNoRuntime "error creating libpod runtime")),
     called (initSt tt) EvGetRuntime tt).
Proof.
  exact (startTargets_runtime_fails
           (toyRuntimeWith (Some errNoRuntime) (None, None) ([], None))
           toyQuote toyUnmarshal (cmdline ["a"] []) false false (initSt tt)
           errNoRuntime tt eq_refl).
Defined.

Lemma startTargets_latest_fails_witness :
  exists s',
    startTargets (toyRuntimeWith None (None, Some errNoContainers) ([], None))
                 toyQuote toyUnmarshal (cmdline ["a"] [("latest", true)])
                 false false (initSt tt)
    = (Val (Some (Wrapf errNoContainers "unable to get latest container")), s')
    /\ trace s' = [] ++ [EvGetRuntime; EvGetLatestContainer; EvShutdown false]
    /\ stdout s' = []
    /\ world s' = tt.
Proof.
  exact (startTargets_latest_fails
           (toyRuntimeWith None (None, Some errNoContainers) ([], None))
           toyQuote toyUnmarshal (cmdline ["a"] [("latest", true)]) false false
           (initSt tt) None errNoContainers None tt tt tt
           eq_refl eq_refl eq_refl eq_refl).
Defined.

(** [podman start --attach r], where [r] is running. *)
Lemma start_attach_running_witness :
  exists s',
    startLoop (toyRuntime []) toyQuote toyUnmarshal
              (cmdline ["r"] [("attach", true)]) true true ["r"] None (initSt tt)
    = (Val None, s')
    /\ trace s' = [] ++ [EvLookupContainer "r"; EvState ctrR;
                         EvStartAttach ctrR false "" true false]
    /\ stdout s' = []
    /\ stderr s' = []
    /\ exitCode s' = 0%Z
    /\ world s' = tt.
Proof.
  exact (start_attach_running (toyRuntime []) toyQuote toyUnmarshal
           (cmdline ["r"] [("attach", true)]) true "r" [] None (initSt tt) ctrR
           None tt tt tt eq_refl eq_refl eq_refl).
Defined.

(** [podman start --attach a]: the exit code of the container becomes that
    of the command. *)
Lemma start_attach_waits_witness :
  exists s',
    startLoop (toyRuntimeWith None (None, None) ([], None)) toyQuote toyUnmarshal
              (cmdline ["a"] [("attach", true)]) true true ["a"] None (initSt tt)
    = (Val None, s')
    /\ exitCode s' = 3%Z.
Proof.
  destruct (start_attach_waits (toyRuntimeWith None (None, None) ([], None))
              toyQuote toyUnmarshal (cmdline ["a"] [("attach", true)]) true "a"
              [] None (initSt tt) ctrA ContainerStateCreated 3%Z None None
              tt tt tt tt tt eq_refl eq_refl ltac:(discriminate)
              eq_refl eq_refl eq_refl)
    as (s' & Hrun & _ & Hcode & _).
  exists s'. split; assumption.
Defined.

(** [podman start --attach f], where [f] fails to start. *)
Lemma start_attach_fails_witness :
  exists s',
    startLoop (toyRuntimeWith None (None, None) ([], None)) toyQuote toyUnmarshal
              (cmdline ["f"] [("attach", true)]) true true ["f"] None (initSt tt)
    = (Val (Some (Wrapf errOCI "unable to start container idf")), s')
    /\ trace s' = [] ++ [EvLookupContainer "f"; EvState ctrF;
                         EvStartAttach ctrF false "" true true]
    /\ exitCode s' = 0%Z
    /\ world s' = tt.
Proof.
  exact (start_attach_fails (toyRuntimeWith None (None, None) ([], None))
           toyQuote toyUnmarshal (cmdline ["f"] [("attach", true)]) true "f" []
           None (initSt tt) ctrF ContainerStateCreated errOCI tt tt tt
           eq_refl eq_refl ltac:(discriminate) eq_refl).
Defined.

(** [podman start a] prints [a], not the identifier of the container. *)
Lemma start_detached_succeeds_witness :
  exists s',
    startBody (toyRuntime []) toyQuote toyUnmarshal (cmdline ["a"] []) false
              false "a" None (initSt tt)
    = (Val (Continue None), s')
    /\ stdout s' = ["a"]
    /\ trace s' = [EvLookupContainer "a"; EvState ctrA; EvStart ctrA].
Proof.
  destruct (start_detached_succeeds (toyRuntime []) toyQuote toyUnmarshal
              (cmdline ["a"] []) false "a" [] None (initSt tt) ctrA
              ContainerStateCreated tt tt tt
              eq_refl eq_refl ltac:(discriminate) eq_refl)
    as (s' & Hrun & Hout & _ & Htrace & _).
  exists s'. repeat split; assumption.
Defined.

Lemma prune_listing_fails_witness :
  pruneContainers (toyRuntimeWith None (None, None) ([], Some errNoContainers))
                  toyExecute toyPrint 4 true (initSt tt)
  = (Val (Some errNoContainers), called (initSt tt) EvGetContainers tt).
Proof.
  exact (prune_listing_fails
           (toyRuntimeWith None (None, None) ([], Some errNoContainers))
           toyExecute toyPrint 4%Z true (initSt tt) [] errNoContainers tt
           eq_refl).
Defined.

Lemma pruneContainersCmd_runtime_fails_witness :
  pruneContainersCmd (toyRuntimeWith (Some errNoRuntime) (None, None) ([], None))
                     (fun _ => 8%Z) toyExecute toyPrint (cmdline [] [])
                     (initSt tt)
  = (Val (Some (Wrapf errNoRuntime "could not get runtime")),
     called (initSt tt) EvGetRuntime tt).
Proof.
  exact (pruneContainersCmd_runtime_fails
           (toyRuntimeWith (Some errNoRuntime) (None, None) ([], None))
           (fun _ => 8%Z) toyExecute toyPrint (cmdline [] []) (initSt tt)
           errNoRuntime tt eq_refl).
Defined.

(** [podman --max-workers 2 container prune] on three containers, two of
    which qualify, with an executor that runs the units in order. *)
Lemma pruneContainersCmd_runs_units_witness :
  pruneContainersCmd (toyRuntimeSound [ctrT; ctrQ; ctrA]) (fun _ => 8%Z)
                     toyExecute toyPrint (cmdlineGlobalWorkers 2) (initSt tt)
  = (Val None,
     {| world := tt;
        trace := [EvGetRuntime; EvGetContainers; EvState ctrT; EvState ctrQ;
                  EvState ctrA; EvParallelExecute 2 ["idt"; "idq"];
                  EvRemoveContainer ctrT false; EvRemoveContainer ctrQ false;
                  EvShutdown false];
        stdout := ["idq"; "idt"]; stderr := []; logrus := [];
        exitCode := 0 |}).
Proof.
  destruct (pruneContainersCmd_runs_units (toyRuntimeSound [ctrT; ctrQ; ctrA])
              (fun _ => 8%Z) toyExecute toyPrint (cmdlineGlobalWorkers 2)
              (initSt tt) [ctrT; ctrQ; ctrA] tt tt
              (conj eq_refl (conj eq_refl eq_refl)) eq_refl eq_refl
              ltac:(discriminate))
    as (_ & _ & _ & Hrun).
  rewrite Hrun. reflexivity.
Defined.

(* ================================================================== *)
(** ** The checks of [start] on its command line *)

Section StartChecks.

Context {W : Type} (R : Runtime W).
Variable ErrInvalidArg : error.
Variable Quote : string -> string.
Variable jsonUnmarshal : string -> CreateConfig -> CreateConfig * option error.

(** X26: attach with two or more identifiers on the command line is
    refused, whatever the other options are, and the state is left as it
    was found: the runtime is not created. *)
Theorem start_attach_needs_single_identifier (c : Context) (s : St W) :
  Bool c "attach" = true ->
  2 <= length (Args c) ->
  startCmd R ErrInvalidArg Quote jsonUnmarshal c s
  = (Val (Some (Errorf "you cannot start and attach multiple containers at once")),
     s).
Proof.
  intros Hattach Hlen. apply start_attach_many_identifiers_refused.
  - now apply Nat.ltb_lt.
  - exact Hattach.
Qed.

(** X27: a target that does not resolve does not stop [start], with or
    without attach: the error that was pending is printed to standard
    error, the new one, which names the target, takes its place, nothing is
    printed to standard output and the loop goes on with the remaining
    targets. *)
Theorem start_lookup_failure_is_recorded
    (c : Context) (attach sigProxy : bool) (container : string)
    (rest : list string) (lastError : option error) (s : St W)
    (p : ptr) (e : error) (w1 : W) :
  rtLookupContainer R container (world s) = ((p, Some e), w1) ->
  exists s',
    startLoop R Quote jsonUnmarshal c attach sigProxy (container :: rest)
              lastError s
    = startLoop R Quote jsonUnmarshal c attach sigProxy rest
                (Some (Wrapf e ("unable to find container " ++ container)%string))
                s'
    /\ mentions (Wrapf e ("unable to find container " ++ container)%string)
                container
    /\ trace s' = trace s ++ [EvLookupContainer container]
    /\ stdout s' = stdout s
    /\ stderr s' = stderr s ++ map Error (pendingList lastError)
    /\ world s' = w1.
Proof.
  intros Hlookup. cbn [startLoop].
  unfold startBody, bind, LookupContainer, call. rewrite Hlookup.
  destruct lastError; cbn; eexists; repeat split;
    try apply mentions_wrapped_lookup.
  now rewrite app_nil_r.
Qed.

(** X28: [start] refuses a --detach-keys whose value is a dash followed by
    another character, as an option that swallowed the next one: once a
    target is named and attach is not asked for several identifiers, the
    command returns the error naming the option and leaves the state as it
    was found. *)
Theorem start_detach_keys_needs_value (c : Context) (s : St W) :
  (Args c <> [] \/ Bool c "latest" = true) ->
  (length (Args c) <= 1 \/ Bool c "attach" = false) ->
  optionLike (String_ c "detach-keys") ->
  startCmd R ErrInvalidArg Quote jsonUnmarshal c s
  = (Val (Some (Errorf "option --detach-keys requires a value")), s).
Proof.
  intros Htarget Hsingle Hopt. unfold startCmd.
  assert (H1 : (length (Args c) <? 1)%nat && negb (Bool c "latest") = false).
  { destruct Htarget as [Hargs| ->]; [|apply andb_false_r].
    destruct (Args c); [congruence|reflexivity]. }
  assert (H2 : (1 <? length (Args c))%nat && Bool c "attach" = false).
  { destruct Hsingle as [Hlen| ->]; [|apply andb_false_r].
    apply andb_false_intro1. apply Nat.ltb_ge. exact Hlen. }
  rewrite H1, H2, validateFlags_startFlags.
  apply looksLikeOption_iff in Hopt. rewrite Hopt. reflexivity.
Qed.

End StartChecks.

(** [podman start --attach a c]. *)
Lemma start_attach_needs_single_identifier_witness :
  startCmd (toyRuntime []) errInvalidArgToy toyQuote toyUnmarshal
           (cmdline ["a"; "c"] [("attach", true)]) (initSt tt)
  = (Val (Some (Errorf "you cannot start and attach multiple containers at once")),
     initSt tt).
Proof.
  apply (start_attach_needs_single_identifier (toyRuntime []) errInvalidArgToy
           toyQuote toyUnmarshal (cmdline ["a"; "c"] [("attach", true)])
           (initSt tt)).
  - reflexivity.
  - cbn. lia.
Defined.

(** [podman start b a]: [b] is not a container, [a] is started. *)
Lemma start_lookup_failure_is_recorded_witness :
  exists s',
    startLoop (toyRuntime []) toyQuote toyUnmarshal (cmdline ["b"; "a"] [])
              false false ["b"; "a"] None (initSt tt)
    = startLoop (toyRuntime []) toyQuote toyUnmarshal (cmdline ["b"; "a"] [])
                false false ["a"]
                (Some (Wrapf errNoSuchContainer "unable to find container b")) s'
    /\ trace s' = [EvLookupContainer "b"]
    /\ stderr s' = [].
Proof.
  destruct (start_lookup_failure_is_recorded (toyRuntime []) toyQuote toyUnmarshal
              (cmdline ["b"; "a"] []) false false "b" ["a"] None (initSt tt)
              None errNoSuchContainer tt eq_refl)
    as (s' & Hrun & _ & Htrace & _ & Herr & _).
  exists s'. repeat split; assumption.
Defined.

(** [podman start --detach-keys -a c]. *)
Lemma start_detach_keys_needs_value_witness :
  startCmd (toyRuntime []) errInvalidArgToy toyQuote toyUnmarshal
           (cmdlineStrings ["c"] [] [("detach-keys", "-a")]) (initSt tt)
  = (Val (Some (Errorf "option --detach-keys requires a value")), initSt tt).
Proof.
  apply (start_detach_keys_needs_value (toyRuntime []) errInvalidArgToy toyQuote
           toyUnmarshal (cmdlineStrings ["c"] [] [("detach-keys", "-a")])
           (initSt tt)).
  - left. discriminate.
  - left. cbn. lia.
  - exists "a"%char, "". split; [reflexivity|discriminate].
Defined.
